(** * Structural health monitoring server: the in-memory reading store

    A shallow embedding of [server.js]: the process-wide [localDataStore],
    the four [/api/sensor-data] route handlers, and the parts of the
    JavaScript runtime the handlers call ([Number], [parseInt],
    [Array.prototype.slice], [unshift], [String.prototype.replace] with the
    date pattern, and the ExcelJS worksheet calls of the download route).

    Conventions.
    - A JavaScript number is an IEEE 754 binary64 value, [spec_float] with
      [prec = 53] and [emax = 1024]; there is one NaN.
    - A JavaScript string is a [string] holding its UTF-8 bytes.
    - A handler is a function from the store to a response and the store
      afterwards.  The [catch] branches of the handlers (status 500) guard
      calls that do not throw on the values modelled here and have no
      counterpart; the conversions [Number] and [parseInt] stand outside the
      [try] and can throw, which ends the handler with no response of its
      own. *)

From Stdlib Require Import ZArith List Bool Lia.
From Stdlib Require Import Strings.String Strings.Ascii.
From Stdlib Require Import Numbers.DecimalString Numbers.DecimalZ Numbers.DecimalPos.
From Stdlib Require Numbers.DecimalFacts.
From Stdlib Require Import Floats.SpecFloat.
Import ListNotations.

Local Open Scope string_scope.
Local Open Scope list_scope.
Local Open Scope Z_scope.

(** ** The JavaScript runtime, as far as the handlers use it *)

Module JS.

(** *** Numbers *)

Definition number : Type := spec_float.

Definition prec : Z := 53.
Definition emax : Z := 1024.

Definition NaN : number := S754_nan.

(** The Number value for the signed mantissa [m] scaled by [2^e]: the nearest
    binary64 value, ties to even, overflowing to an infinity; a zero mantissa
    takes the sign [szero]. *)
Definition round (m e : Z) (szero : bool) : number :=
  binary_normalize prec emax m e szero.

(** The Number value for an integer, as a numeric literal of the source
    ([0], [10], [50]) or the result of [parseInt] denotes it. *)
Definition of_Z (z : Z) : number := round z 0 false.

(** The Number value for [sign * m / q], [m] and [q] positive.  The quotient
    is taken with at least 64 significant bits, and a last bit that records
    whether the division left a remainder, before the final rounding. *)
Definition round_ratio (neg : bool) (m q : Z) : number :=
  let s := Z.max 0 (Z.log2 q - Z.log2 m + 64) in
  let n := Z.shiftl m s / q in
  let r := Z.shiftl m s mod q in
  let mant := 2 * n + (if r =? 0 then 0 else 1) in
  round (cond_Zopp neg mant) (- s - 1) neg.

(** ToBoolean on a number: [NaN], [+0] and [-0] are falsy. *)
Definition ToBoolean (n : number) : bool :=
  match n with
  | S754_zero _ | S754_nan => false
  | S754_infinity _ | S754_finite _ _ _ => true
  end.

(** [a || b] on numbers. *)
Definition or_else (a b : number) : number :=
  if ToBoolean a then a else b.

Inductive IntegerOrInfinity : Type :=
  | NegInf
  | Int (z : Z)
  | PosInf.

(** ToIntegerOrInfinity: NaN and the zeros give 0, a finite number is
    truncated toward zero. *)
Definition ToIntegerOrInfinity (n : number) : IntegerOrInfinity :=
  match n with
  | S754_nan | S754_zero _ => Int 0
  | S754_infinity false => PosInf
  | S754_infinity true => NegInf
  | S754_finite s m e => Int (cond_Zopp s (Z.shiftl (Zpos m) e))
  end.

(** *** Arrays *)

(** The index a relative [start] or [end] argument of [slice] denotes in an
    array of length [len]. *)
Definition relative_index (len : Z) (arg : number) : Z :=
  match ToIntegerOrInfinity arg with
  | NegInf => 0
  | Int rel => if rel <? 0 then Z.max (len + rel) 0 else Z.min rel len
  | PosInf => len
  end.

(** [O.slice(start, end)]: a new array, [O] is not modified. *)
Definition slice {A : Type} (O : list A) (start end_ : number) : list A :=
  let len := Z.of_nat (List.length O) in
  let k := relative_index len start in
  let final := relative_index len end_ in
  firstn (Z.to_nat (final - k)) (skipn (Z.to_nat k) O).

(** [O.unshift(x)]: the array after the call. *)
Definition unshift {A : Type} (O : list A) (x : A) : list A := x :: O.

(** *** Strings: white space and digits *)

Definition code (c : ascii) : Z := Z.of_N (N_of_ascii c).

(** [white_space s] is the rest of [s] after one leading StrWhiteSpaceChar
    (WhiteSpace or LineTerminator), read in UTF-8:
    TAB, LF, VT, FF, CR, SP; U+00A0; U+1680; U+2000..U+200A, U+2028, U+2029,
    U+202F, U+205F; U+3000; U+FEFF. *)
Definition white_space (s : string) : option string :=
  match s with
  | String c1 s1 =>
    let b1 := code c1 in
    if ((9 <=? b1) && (b1 <=? 13)) || (b1 =? 32) then Some s1 else
    match s1 with
    | String c2 s2 =>
      let b2 := code c2 in
      if (b1 =? 194) && (b2 =? 160) then Some s2 else
      match s2 with
      | String c3 s3 =>
        let b3 := code c3 in
        if (b1 =? 225) && (b2 =? 154) && (b3 =? 128) then Some s3
        else if (b1 =? 226) && (b2 =? 128)
                && (((128 <=? b3) && (b3 <=? 138)) || (b3 =? 168)
                    || (b3 =? 169) || (b3 =? 175)) then Some s3
        else if (b1 =? 226) && (b2 =? 129) && (b3 =? 159) then Some s3
        else if (b1 =? 227) && (b2 =? 128) && (b3 =? 128) then Some s3
        else if (b1 =? 239) && (b2 =? 187) && (b3 =? 191) then Some s3
        else None
      | EmptyString => None
      end
    | EmptyString => None
    end
  | EmptyString => None
  end.

(** Drop leading white space; [fuel] bounds the number of characters
    dropped, [length s] is always enough. *)
Fixpoint skip_white_space (fuel : nat) (s : string) : string :=
  match fuel with
  | O => s
  | S fuel' =>
    match white_space s with
    | Some s' => skip_white_space fuel' s'
    | None => s
    end
  end.

Definition trim_start (s : string) : string :=
  skip_white_space (String.length s) s.

(** [s] is white space only. *)
Definition all_white_space (s : string) : bool :=
  match trim_start s with
  | EmptyString => true
  | String _ _ => false
  end.

(** The value of [c] as a digit of radix [R] (at most 16), if it is one. *)
Definition digit_value (R : Z) (c : ascii) : option Z :=
  let b := code c in
  let v :=
    if (48 <=? b) && (b <=? 57) then Some (b - 48)
    else if (97 <=? b) && (b <=? 102) then Some (b - 87)
    else if (65 <=? b) && (b <=? 70) then Some (b - 55)
    else None in
  match v with
  | Some d => if d <? R then Some d else None
  | None => None
  end.

(** The longest prefix of [s] made of radix-[R] digits, read from the
    accumulator [acc]: its value, the number of digits, and the rest. *)
Fixpoint digits (R : Z) (acc : Z) (count : nat) (s : string) : Z * nat * string :=
  match s with
  | String c s' =>
    match digit_value R c with
    | Some d => digits R (R * acc + d) (S count) s'
    | None => (acc, count, s)
    end
  | EmptyString => (acc, count, s)
  end.

(** [strip_prefix p s] is the rest of [s] after the prefix [p], if [s]
    starts with [p]. *)
Fixpoint strip_prefix (p s : string) : option string :=
  match p, s with
  | EmptyString, _ => Some s
  | String a p', String b s' => if Ascii.eqb a b then strip_prefix p' s' else None
  | String _ _, EmptyString => None
  end.

(** *** StringToNumber *)

(** A StrUnsignedDecimalLiteral: [Infinity], or the decimal digits [m]
    scaled by [10^e]. *)
Inductive literal : Type :=
  | LitInfinity
  | LitDecimal (m e : Z).

(** An optional sign: whether it is [-], and the rest. *)
Definition sign (s : string) : bool * string :=
  match s with
  | String c s' =>
    if code c =? 45 then (true, s')
    else if code c =? 43 then (false, s')
    else (false, s)
  | EmptyString => (false, s)
  end.

(** ExponentPart: [e] or [E], an optional sign, at least one digit. *)
Definition exponent_part (s : string) : option (Z * string) :=
  match s with
  | String c s1 =>
    if (code c =? 101) || (code c =? 69) then
      let '(neg, s2) := sign s1 in
      let '(x, n, rest) := digits 10 0 0 s2 in
      match n with
      | O => None
      | S _ => Some (cond_Zopp neg x, rest)
      end
    else None
  | EmptyString => None
  end.

Definition with_exponent (m e : Z) (s : string) : literal * string :=
  match exponent_part s with
  | Some (x, rest) => (LitDecimal m (e + x), rest)
  | None => (LitDecimal m e, s)
  end.

(** The StrUnsignedDecimalLiteral [s] starts with, and the rest:
    [Infinity], digits with an optional fraction, or a fraction alone, each
    but the first with an optional exponent. *)
Definition unsigned_decimal (s : string) : option (literal * string) :=
  match strip_prefix "Infinity" s with
  | Some rest => Some (LitInfinity, rest)
  | None =>
    let '(i, ni, s1) := digits 10 0 0 s in
    match strip_prefix "." s1 with
    | Some s2 =>
      let '(m, nf, s3) := digits 10 i 0 s2 in
      match (ni + nf)%nat with
      | O => None
      | S _ => Some (with_exponent m (- Z.of_nat nf) s3)
      end
    | None =>
      match ni with
      | O => None
      | S _ => Some (with_exponent i 0 s1)
      end
    end
  end.

(** The rounded value of a literal under the sign [neg]; a zero keeps the
    sign. *)
Definition literal_value (neg : bool) (l : literal) : number :=
  match l with
  | LitInfinity => S754_infinity neg
  | LitDecimal m e =>
    if m =? 0 then S754_zero neg
    else if 0 <=? e then round (cond_Zopp neg (m * 10 ^ e)) 0 neg
    else round_ratio neg m (10 ^ (- e))
  end.

(** A NonDecimalIntegerLiteral: [0x], [0o] or [0b] in either case, then at
    least one digit of that radix. *)
Definition non_decimal (s : string) : option (number * string) :=
  match s with
  | String c0 (String c1 s') =>
    let b := code c1 in
    let R :=
      if (b =? 120) || (b =? 88) then Some 16
      else if (b =? 111) || (b =? 79) then Some 8
      else if (b =? 98) || (b =? 66) then Some 2
      else None in
    match R with
    | Some R =>
      if code c0 =? 48 then
        let '(v, n, rest) := digits R 0 0 s' in
        match n with
        | O => None
        | S _ => Some (of_Z v, rest)
        end
      else None
    | None => None
    end
  | _ => None
  end.

(** The StrNumericLiteral [s] starts with, and the rest. *)
Definition numeric_literal (s : string) : option (number * string) :=
  match non_decimal s with
  | Some r => Some r
  | None =>
    let '(neg, s') := sign s in
    match unsigned_decimal s' with
    | Some (l, rest) => Some (literal_value neg l, rest)
    | None => None
    end
  end.

(** StringToNumber: white space around a StrNumericLiteral is ignored, the
    empty or blank string is [+0], any other string is [NaN]. *)
Definition StringToNumber (s : string) : number :=
  match trim_start s with
  | EmptyString => S754_zero false
  | t =>
    match numeric_literal t with
    | Some (v, rest) => if all_white_space rest then v else NaN
    | None => NaN
    end
  end.

(** [parseInt(inputString)] with no radix: leading white space and a sign are
    skipped, [0x] selects radix 16, the longest run of digits is read and what
    follows it is ignored; no digit gives [NaN]. *)
Definition parseInt_string (inputString : string) : number :=
  let '(neg, S1) := sign (trim_start inputString) in
  let '(R, S2) :=
    match S1 with
    | String c0 (String c1 S') =>
      if (code c0 =? 48) && ((code c1 =? 120) || (code c1 =? 88))
      then (16, S') else (10, S1)
    | _ => (10, S1)
    end in
  let '(mathInt, n, _) := digits R 0 0 S2 in
  match n with
  | O => NaN
  | S _ => round (cond_Zopp neg mathInt) 0 neg
  end.

(** *** Values *)

(** The values a parsed JSON body or a parsed query string holds, and
    [undefined] for what a missing property reads as. *)
#[warnings="-register-all"]
Inductive value : Type :=
  | Undefined
  | Null
  | Bool (b : bool)
  | Num (n : number)
  | Str (s : string)
  | Array (elements : list value)
  | Object (properties : list (string * value)).

(** [O[P]] on the own properties of a plain object: [undefined] when there
    is none of that name. *)
Fixpoint Get (O : list (string * value)) (P : string) : value :=
  match O with
  | [] => Undefined
  | (k, v) :: O' => if String.eqb k P then v else Get O' P
  end.

(** The plain object has an own property named [P]. *)
Definition HasOwnProperty (O : list (string * value)) (P : string) : bool :=
  existsb (fun entry : string * value => String.eqb (fst entry) P) O.

(** [v === undefined] and [v === null]. *)
Definition is_undefined (v : value) : bool :=
  match v with Undefined => true | _ => false end.

Definition is_null (v : value) : bool :=
  match v with Null => true | _ => false end.

(** What the handlers take from the host: how a number prints
    (Number::toString), and how the instant [t], in milliseconds since the
    epoch, prints under
    [toLocaleString('en-US', {timeZone: 'Asia/Kolkata', year: 'numeric',
    month: '2-digit', day: '2-digit', hour: '2-digit', minute: '2-digit',
    second: '2-digit', hour12: false})], which is the host's locale and
    time-zone data. *)
Class Host : Type := {
  NumberToString : number -> string;
  toLocaleString : Z -> string
}.

Section Conversions.

Context {host : Host}.

(** ToString; [None] when the conversion throws a TypeError.  An array
    joins its elements with commas, [undefined] and [null] elements printing
    as nothing.  A plain object prints as [[object Object]] through the
    [toString] it inherits; when it has an own property [toString], which in
    a parsed body or query is never a function, no method gives a primitive
    and the conversion throws. *)
Fixpoint ToString (v : value) : option string :=
  match v with
  | Undefined => Some "undefined"
  | Null => Some "null"
  | Bool true => Some "true"
  | Bool false => Some "false"
  | Num n => Some (NumberToString n)
  | Str s => Some s
  | Array elements =>
    (fix join (l : list value) : option string :=
       match l with
       | [] => Some ""
       | x :: rest =>
         match
           (match x with
            | Undefined | Null => Some ""
            | _ => ToString x
            end),
           (match rest with
            | [] => Some ""
            | _ :: _ => option_map (String.append ",") (join rest)
            end)
         with
         | Some first, Some others => Some (String.append first others)
         | _, _ => None
         end
       end) elements
  | Object properties =>
    if HasOwnProperty properties "toString" then None
    else Some "[object Object]"
  end.

(** [Number(v)], that is ToNumber; [None] when it throws a TypeError.  An
    array or a plain object goes through its string: the [valueOf] they
    inherit returns the object itself, so [toString] is tried next. *)
Definition Number (v : value) : option number :=
  match v with
  | Undefined => Some NaN
  | Null => Some (S754_zero false)
  | Bool true => Some (of_Z 1)
  | Bool false => Some (S754_zero false)
  | Num n => Some n
  | Str s => Some (StringToNumber s)
  | Array _ | Object _ => option_map StringToNumber (ToString v)
  end.

(** [parseInt(v)]: the argument is converted to a string first; [None] when
    that conversion throws. *)
Definition parseInt (v : value) : option number :=
  option_map parseInt_string (ToString v).

End Conversions.

(** [Date.now().toString()] at the instant [t]: a time value is an integer
    below [10^21] in magnitude, which prints as its decimal digits, with a
    leading [-] when negative. *)
Definition time_toString (t : Z) : string :=
  NilZero.string_of_int (Z.to_int t).

End JS.

Import JS.

(** ** The worksheet calls of the download route (ExcelJS) *)

Module ExcelJS.

Inductive CellValue : Type :=
  | Empty
  | Text (s : string)
  | Numeric (n : number).

Record Font : Type := { bold : bool }.

Record Row : Type := { values : list CellValue; font : Font }.

Record Column : Type := { header : string; key : string; width : Z }.

Record Worksheet : Type := {
  name : string;
  columns : list Column;
  rows : list Row
}.

Definition plain : Font := {| bold := false |}.

(** [workbook.addWorksheet(name)]: a sheet with no column and no row. *)
Definition addWorksheet (name : string) : Worksheet :=
  {| name := name; columns := []; rows := [] |}.

(** [worksheet.columns = cols]: the columns are defined and row 1 holds
    their headers. *)
Definition set_columns (cols : list Column) (ws : Worksheet) : Worksheet :=
  {| name := name ws;
     columns := cols;
     rows := {| values := map (fun c => Text (header c)) cols; font := plain |}
             :: tl (rows ws) |}.

(** [worksheet.addRow(data)] with an object: a new last row, the cell of each
    column holding the property of [data] named by the column's key. *)
Definition addRow (data : string -> CellValue) (ws : Worksheet) : Worksheet :=
  {| name := name ws;
     columns := columns ws;
     rows := rows ws
             ++ [ {| values := map (fun c => data (key c)) (columns ws);
                     font := plain |} ] |}.

(** Rows are numbered from 1; a row that does not exist yet is created
    empty. *)
Fixpoint set_font (n : nat) (f : Font) (rs : list Row) : list Row :=
  match n with
  | O => rs
  | S O =>
    match rs with
    | r :: rest => {| values := values r; font := f |} :: rest
    | [] => [ {| values := []; font := f |} ]
    end
  | S n' =>
    match rs with
    | r :: rest => r :: set_font n' f rest
    | [] => {| values := []; font := plain |} :: set_font n' f []
    end
  end.

(** [worksheet.getRow(n).font = f]. *)
Definition set_row_font (n : nat) (f : Font) (ws : Worksheet) : Worksheet :=
  {| name := name ws; columns := columns ws; rows := set_font n f (rows ws) |}.

End ExcelJS.

(** ** server.js *)

(** One stored sample, the [newData] object of the POST route. *)
Record Reading : Type := {
  strain : number;
  vibration : number;
  displacement : number;
  acceleration : number;
  timestamp : string;
  id : string
}.

(** [localDataStore]. *)
Record DataStore : Type := { sensorData : list Reading }.

(** The store when the process starts. *)
Definition localDataStore : DataStore := {| sensorData := [] |}.

(** What a handler hands to [res.json], and for the download route the sheet
    written to [data/sensor_data.xlsx] and sent under the given file name.
    [data] of the latest-reading route is the element read at index 0,
    [None] for [undefined]. *)
Inductive Payload : Type :=
  | Message (success : bool) (message : string)
  | Stored (success : bool) (message : string) (latestData : Reading)
  | Data (success : bool) (data : list Reading)
  | Latest (success : bool) (data : option Reading)
  | File (filename : string) (worksheet : ExcelJS.Worksheet).

Record Response : Type := { status : Z; payload : Payload }.

(** How a handler ends: it sends a response, or a TypeError thrown by a
    conversion outside its [try] leaves it.  What becomes of the exception
    (the error handler of Express for the GET route, a rejected promise for
    the [async] POST route) is not in server.js. *)
Inductive Result : Type :=
  | Sent (res : Response)
  | Threw.

(** The status of the response sent, if one is. *)
Definition sent_status (r : Result) : option Z :=
  match r with
  | Sent res => Some (status res)
  | Threw => None
  end.

(** *** The date pattern of [getISTDateTime] *)

Definition is_digit (c : ascii) : bool :=
  (48 <=? code c) && (code c <=? 57).

(** The longest prefix of decimal digits, and the rest. *)
Fixpoint span_digits (s : string) : string * string :=
  match s with
  | String c s' =>
    if is_digit c
    then let '(d, rest) := span_digits s' in (String c d, rest)
    else (EmptyString, s)
  | EmptyString => (EmptyString, EmptyString)
  end.

(** A match of [(\d+)\/(\d+)\/(\d+)] at the start of [s]: the three groups
    and what follows the match.  Each [\d+] is greedy, and giving digits
    back can not help since a [/] or the end of the pattern follows. *)
Definition match_date (s : string) : option (string * string * string * string) :=
  let '(g1, r1) := span_digits s in
  match g1, strip_prefix "/" r1 with
  | String _ _, Some r1' =>
    let '(g2, r2) := span_digits r1' in
    match g2, strip_prefix "/" r2 with
    | String _ _, Some r2' =>
      let '(g3, r3) := span_digits r2' in
      match g3 with
      | String _ _ => Some (g1, g2, g3, r3)
      | EmptyString => None
      end
    | _, _ => None
    end
  | _, _ => None
  end.

(** [s.replace(/(\d+)\/(\d+)\/(\d+)/, '$3-$1-$2')]: the leftmost match
    only. *)
Fixpoint replace_date (s : string) : string :=
  match match_date s with
  | Some (g1, g2, g3, rest) =>
    String.append g3 (String.append "-" (String.append g1
      (String.append "-" (String.append g2 rest))))
  | None =>
    match s with
    | String c s' => String c (replace_date s')
    | EmptyString => EmptyString
    end
  end.

Section Handlers.

Context {host : Host}.

(** [getISTDateTime()] when [new Date()] reads the instant [now]. *)
Definition getISTDateTime (now : Z) : string :=
  replace_date (toLocaleString now).

(** The object literal [newData]; [None] when one of the four [Number()]
    throws. *)
Definition newData (strain vibration displacement acceleration : value)
    (tDate tNow : Z) : option Reading :=
  match Number strain, Number vibration, Number displacement,
        Number acceleration with
  | Some s, Some v, Some d, Some a =>
    Some (Build_Reading s v d a (getISTDateTime tDate) (time_toString tNow))
  | _, _, _, _ => None
  end.

(** The presence check of the POST route. *)
Definition missing (strain vibration displacement acceleration : value) : bool :=
  is_undefined strain || is_null strain ||
  is_undefined vibration || is_null vibration ||
  is_undefined displacement || is_null displacement ||
  is_undefined acceleration || is_null acceleration.

(** [POST /api/sensor-data] (Accept).  [body] holds the own properties of
    [req.body]; [tDate] is the instant [new Date()] reads in
    [getISTDateTime], [tNow] the one [Date.now()] reads. *)
Definition post_sensor_data (body : list (string * value)) (tDate tNow : Z)
    (store : DataStore) : Result * DataStore :=
  let strain := Get body "strain" in
  let vibration := Get body "vibration" in
  let displacement := Get body "displacement" in
  let acceleration := Get body "acceleration" in
  if missing strain vibration displacement acceleration then
    (Sent {| status := 400;
             payload := Message false
               "Missing required fields: strain, vibration, displacement, or acceleration" |},
     store)
  else
    match newData strain vibration displacement acceleration tDate tNow with
    | None => (Threw, store)
    | Some newData =>
      let unshifted := unshift (sensorData store) newData in
      let kept :=
        if (50 <? List.length unshifted)%nat
        then slice unshifted (of_Z 0) (of_Z 50)
        else unshifted in
      (Sent {| status := 200;
               payload := Stored true "Data stored successfully in memory" newData |},
       {| sensorData := kept |})
    end.

(** [GET /api/sensor-data] (Query); [query_limit] is [req.query.limit].
    The [parseInt] is outside the [try]. *)
Definition get_sensor_data (query_limit : value) (store : DataStore)
    : Result * DataStore :=
  match parseInt query_limit with
  | None => (Threw, store)
  | Some parsed =>
    let limit := or_else parsed (of_Z 10) in
    let data := slice (sensorData store) (of_Z 0) limit in
    (Sent {| status := 200; payload := Data true data |}, store)
  end.

(** [GET /api/sensor-data/latest] (QueryLatest). *)
Definition get_sensor_data_latest (store : DataStore) : Response * DataStore :=
  if (0 <? List.length (sensorData store))%nat then
    ({| status := 200; payload := Latest true (nth_error (sensorData store) 0) |},
     store)
  else
    ({| status := 404; payload := Message false "No data available" |}, store).

(** The [columns] of the sheet. *)
Definition sheet_columns : list ExcelJS.Column :=
  [ {| ExcelJS.header := "Timestamp"; ExcelJS.key := "timestamp"; ExcelJS.width := 25 |};
    {| ExcelJS.header := "Strain"; ExcelJS.key := "strain"; ExcelJS.width := 15 |};
    {| ExcelJS.header := "Vibration"; ExcelJS.key := "vibration"; ExcelJS.width := 15 |};
    {| ExcelJS.header := "Displacement"; ExcelJS.key := "displacement"; ExcelJS.width := 15 |};
    {| ExcelJS.header := "Acceleration"; ExcelJS.key := "acceleration"; ExcelJS.width := 15 |};
    {| ExcelJS.header := "ID"; ExcelJS.key := "id"; ExcelJS.width := 25 |} ].

(** The property of a stored reading named [k], as a cell. *)
Definition property (data : Reading) (k : string) : ExcelJS.CellValue :=
  if String.eqb k "strain" then ExcelJS.Numeric (strain data)
  else if String.eqb k "vibration" then ExcelJS.Numeric (vibration data)
  else if String.eqb k "displacement" then ExcelJS.Numeric (displacement data)
  else if String.eqb k "acceleration" then ExcelJS.Numeric (acceleration data)
  else if String.eqb k "timestamp" then ExcelJS.Text (timestamp data)
  else if String.eqb k "id" then ExcelJS.Text (id data)
  else ExcelJS.Empty.

(** [GET /api/sensor-data/download] (Export): the sheet is built from the
    store in one synchronous step, then written and sent. *)
Definition get_sensor_data_download (store : DataStore) : Response * DataStore :=
  let worksheet := ExcelJS.addWorksheet "Sensor Data" in
  let worksheet := ExcelJS.set_columns sheet_columns worksheet in
  let worksheet :=
    fold_left (fun ws data => ExcelJS.addRow (property data) ws)
      (sensorData store) worksheet in
  let worksheet := ExcelJS.set_row_font 1 {| ExcelJS.bold := true |} worksheet in
  ({| status := 200; payload := File "sensor_data.xlsx" worksheet |}, store).

(** *** Requests and runs *)

Inductive Request : Type :=
  | POST_sensor_data (body : list (string * value)) (tDate tNow : Z)
  | GET_sensor_data (query_limit : value)
  | GET_sensor_data_latest
  | GET_sensor_data_download.

Definition handle (rq : Request) (store : DataStore) : Result * DataStore :=
  match rq with
  | POST_sensor_data body tDate tNow => post_sensor_data body tDate tNow store
  | GET_sensor_data query_limit => get_sensor_data query_limit store
  | GET_sensor_data_latest =>
    let (res, store') := get_sensor_data_latest store in (Sent res, store')
  | GET_sensor_data_download =>
    let (res, store') := get_sensor_data_download store in (Sent res, store')
  end.

(** The store after the requests [rqs], served in order. *)
Fixpoint run (rqs : list Request) (store : DataStore) : DataStore :=
  match rqs with
  | [] => store
  | rq :: rest => run rest (snd (handle rq store))
  end.

End Handlers.

(** ** A host for the examples *)

(** A stand-in for Number::toString, exact on NaN, the zeros, the infinities
    and the integers below [10^21] in magnitude; of any other finite number
    it prints the integer part only.  The examples print no number. *)
Definition example_NumberToString (n : number) : string :=
  match n with
  | S754_nan => "NaN"
  | S754_zero _ => "0"
  | S754_infinity false => "Infinity"
  | S754_infinity true => "-Infinity"
  | S754_finite s m e => time_toString (cond_Zopp s (Z.shiftl (Zpos m) e))
  end.

Definition pad2 (n : Z) : string :=
  if n <? 10 then String.append "0" (time_toString n) else time_toString n.

(** The civil date of the day [days] after 1970-01-01, as (year, month,
    day). *)
Definition civil_from_days (days : Z) : Z * Z * Z :=
  let z := days + 719468 in
  let era := z / 146097 in
  let doe := z - era * 146097 in
  let yoe := (doe - doe / 1460 + doe / 36524 - doe / 146096) / 365 in
  let doy := doe - (365 * yoe + yoe / 4 - yoe / 100) in
  let mp := (5 * doy + 2) / 153 in
  let d := doy - (153 * mp + 2) / 5 + 1 in
  let m := if mp <? 10 then mp + 3 else mp - 9 in
  let y := yoe + era * 400 + (if m <=? 2 then 1 else 0) in
  (y, m, d).

(** The en-US rendering [MM/DD/YYYY, HH:mm:ss] of the instant [t] at the
    offset +05:30, which Asia/Kolkata has kept since 1945. *)
Definition example_toLocaleString (t : Z) : string :=
  let seconds := (t + 19800000) / 1000 in
  let '(y, m, d) := civil_from_days (seconds / 86400) in
  let s := seconds mod 86400 in
  String.append (pad2 m) (String.append "/" (String.append (pad2 d)
    (String.append "/" (String.append (time_toString y)
      (String.append ", " (String.append (pad2 (s / 3600))
        (String.append ":" (String.append (pad2 (s mod 3600 / 60))
          (String.append ":" (pad2 (s mod 60))))))))))).

Definition example_host : Host :=
  {| NumberToString := example_NumberToString;
     toLocaleString := example_toLocaleString |}.

(** ** Vocabulary of the statements *)

(** The four required fields. *)
Definition required_fields : list string :=
  ["strain"; "vibration"; "displacement"; "acceleration"].

(** [s] reads as a StringNumericLiteral: it is blank, or a numeric literal
    with white space around it. *)
Definition is_numeric_string (s : string) : bool :=
  match trim_start s with
  | EmptyString => true
  | t =>
    match numeric_literal t with
    | Some (_, rest) => all_white_space rest
    | None => false
    end
  end.

(** [c] is a character a numeric string can start with: a digit, a sign,
    the point, the I of Infinity, or the first byte of a white space
    character. *)
Definition literal_start (c : ascii) : bool :=
  let b := code c in
  ((48 <=? b) && (b <=? 57))
  || (b =? 43) || (b =? 45) || (b =? 46) || (b =? 73)
  || ((9 <=? b) && (b <=? 13)) || (b =? 32)
  || (b =? 194) || (b =? 225) || (b =? 226) || (b =? 227) || (b =? 239).

(** [v] is a boolean, a number or a string. *)
Definition is_primitive (v : value) : bool :=
  match v with
  | Bool _ | Num _ | Str _ => true
  | Undefined | Null | Array _ | Object _ => false
  end.

(** [s] occurs in [t]. *)
Definition occurs_in (s t : string) : bool :=
  match String.index 0 s t with
  | Some _ => true
  | None => false
  end.

Section Vocabulary.

Context {host : Host}.

(** [Number(v)] does not throw. *)
Definition converts (v : value) : bool :=
  match Number v with
  | Some _ => true
  | None => false
  end.

(** The number [Number(v)] gives; where it throws this reads NaN, and no
    statement below uses it there. *)
Definition converted (v : value) : number :=
  match Number v with
  | Some n => n
  | None => NaN
  end.

(** The body is one the POST route accepts: the four fields pass the
    presence check and [Number()] converts each of them. *)
Definition present (body : list (string * value)) : bool :=
  negb (missing (Get body "strain") (Get body "vibration")
          (Get body "displacement") (Get body "acceleration"))
  && converts (Get body "strain") && converts (Get body "vibration")
  && converts (Get body "displacement") && converts (Get body "acceleration").

(** The reading the POST route builds from an accepted body. *)
Definition reading_of (body : list (string * value)) (tDate tNow : Z) : Reading :=
  Build_Reading (converted (Get body "strain")) (converted (Get body "vibration"))
    (converted (Get body "displacement")) (converted (Get body "acceleration"))
    (getISTDateTime tDate) (time_toString tNow).

(** One POST, as data: the body and the two instants read. *)
Definition Post : Type := list (string * value) * Z * Z.

Definition post_request (p : Post) : Request :=
  let '(body, tDate, tNow) := p in POST_sensor_data body tDate tNow.

Definition post_reading (p : Post) : Reading :=
  let '(body, tDate, tNow) := p in reading_of body tDate tNow.

Definition post_present (p : Post) : bool :=
  let '(body, _, _) := p in present body.

(** The instants [Date.now()] read in the accepted POSTs of a run, in
    order. *)
Fixpoint accepted_instants (rqs : list Request) : list Z :=
  match rqs with
  | [] => []
  | POST_sensor_data body _ tNow :: rest =>
    if present body then tNow :: accepted_instants rest
    else accepted_instants rest
  | _ :: rest => accepted_instants rest
  end.

End Vocabulary.

(** The readings a response of the GET route carries. *)
Definition returned (r : Result * DataStore) : list Reading :=
  match fst r with
  | Sent {| payload := Data _ data |} => data
  | _ => []
  end.

(** The wording of the 400 answer. *)
Definition missing_message : string :=
  "Missing required fields: strain, vibration, displacement, or acceleration".

(** The first row of the exported sheet, and the row of a reading. *)
Definition header_row : ExcelJS.Row :=
  {| ExcelJS.values :=
       [ExcelJS.Text "Timestamp"; ExcelJS.Text "Strain"; ExcelJS.Text "Vibration";
        ExcelJS.Text "Displacement"; ExcelJS.Text "Acceleration"; ExcelJS.Text "ID"];
     ExcelJS.font := {| ExcelJS.bold := true |} |}.

Definition data_row (r : Reading) : ExcelJS.Row :=
  {| ExcelJS.values :=
       [ExcelJS.Text (timestamp r); ExcelJS.Numeric (strain r);
        ExcelJS.Numeric (vibration r); ExcelJS.Numeric (displacement r);
        ExcelJS.Numeric (acceleration r); ExcelJS.Text (id r)];
     ExcelJS.font := ExcelJS.plain |}.

(** A body with the four fields set to the given values. *)
Definition body_of (strain vibration displacement acceleration : value)
    : list (string * value) :=
  [("strain", strain); ("vibration", vibration);
   ("displacement", displacement); ("acceleration", acceleration)].

(** [n] POSTs, one per second from the instant [t], with strain
    [n, n-1, ..., 1]. *)
Fixpoint example_posts (n : nat) (t : Z) : list Post :=
  match n with
  | O => []
  | S n' =>
    (body_of (Num (of_Z (Z.of_nat n))) (Num (of_Z 5)) (Num (of_Z 0)) (Num (of_Z 1)),
     t, t) :: example_posts n' (t + 1000)
  end.

(** The store after [n] such POSTs. *)
Definition example_store (n : nat) : DataStore :=
  run (host := example_host)
    (map post_request (example_posts n 1730512345678))
    localDataStore.

(** A run of four requests: a POST whose strain is the object
    [{toString: "x"}], on which [Number] throws; a POST of numbers; a GET
    whose limit is the object [{toString: "1"}], on which [parseInt] throws;
    a POST that lacks acceleration. *)
Definition example_run : list Request :=
  [POST_sensor_data
     (body_of (Object [("toString", Str "x")]) (Num (of_Z 5)) (Num (of_Z 0))
        (Num (of_Z 1)))
     1730512345678 1730512345678;
   POST_sensor_data
     (body_of (Num (of_Z 7)) (Num (of_Z 5)) (Num (of_Z 0)) (Num (of_Z 1)))
     1730512346678 1730512346678;
   GET_sensor_data (Object [("toString", Str "1")]);
   POST_sensor_data
     (body_of (Num (of_Z 9)) (Num (of_Z 5)) (Num (of_Z 0)) Undefined)
     1730512347678 1730512347678].

(** The reading the second request of [example_run] stores. *)
Definition example_reading : Reading :=
  {| strain := of_Z 7; vibration := of_Z 5; displacement := S754_zero false;
     acceleration := of_Z 1; timestamp := "2024-11-02, 07:22:26";
     id := "1730512346678" |}.

(** ** Runs of mixed requests *)

Section RunVocabulary.

Context {host : Host}.

(** The request changes the store: it is a POST the route accepts, one
    answered 200. *)
Definition is_accepted_post (rq : Request) : bool :=
  match rq with
  | POST_sensor_data body _ _ => present body
  | _ => false
  end.

(** The readings built by the accepted POSTs of a run, in order. *)
Fixpoint accepted_readings (rqs : list Request) : list Reading :=
  match rqs with
  | [] => []
  | POST_sensor_data body tDate tNow :: rest =>
    if present body then reading_of body tDate tNow :: accepted_readings rest
    else accepted_readings rest
  | _ :: rest => accepted_readings rest
  end.

End RunVocabulary.

(** ** Strings of digits *)

(** Every character of [s] is a decimal digit. *)
Fixpoint digit_string (s : string) : bool :=
  match s with
  | EmptyString => true
  | String c s' => is_digit c && digit_string s'
  end.

Definition starts_with_digit (s : string) : bool :=
  match s with
  | EmptyString => false
  | String c _ => is_digit c
  end.

(** The character [c] occurs in [s]. *)
Fixpoint has_char (c : ascii) (s : string) : bool :=
  match s with
  | EmptyString => false
  | String a s' => Ascii.eqb a c || has_char c s'
  end.

(** ** sensor-dashboard/src/App.jsx: the state of the dashboard *)

Module App.

(** A parsed JSON object, by its properties. *)
Definition object : Type := list (string * value).

(** A number as [res.json] writes it and the client parses it back: NaN and
    the infinities are written [null], a zero is written [0], any other
    number is read back as it was. *)
Definition json_number (n : number) : value :=
  match n with
  | S754_nan | S754_infinity _ => Null
  | S754_zero _ => Num (S754_zero false)
  | S754_finite _ _ _ => Num n
  end.

(** A stored reading as the client receives it. *)
Definition json_reading (r : Reading) : object :=
  [("strain", json_number (strain r));
   ("vibration", json_number (vibration r));
   ("displacement", json_number (displacement r));
   ("acceleration", json_number (acceleration r));
   ("timestamp", Str (timestamp r));
   ("id", Str (id r))].

(** [response.data.data] of the poll
    [GET /api/sensor-data?limit=20] served on [store]. *)
Definition poll {host : Host} (store : DataStore) : list object :=
  map json_reading (returned (get_sensor_data (Str "20") store)).

Record Alert : Type := { threshold : number; triggered : bool }.

(** The [useState] cells of the component; [latestData] is [None] for
    [null], [error] likewise. *)
Record State : Type := {
  sensorData : list object;
  latestData : option object;
  loading : bool;
  error : option string;
  alerts : list (string * Alert)
}.

Definition initial : State :=
  {| sensorData := [];
     latestData := None;
     loading := true;
     error := None;
     alerts :=
       [("strain", {| threshold := of_Z 1000; triggered := false |});
        ("vibration", {| threshold := of_Z 500; triggered := false |});
        ("displacement", {| threshold := of_Z 100; triggered := false |});
        ("acceleration", {| threshold := of_Z 200; triggered := false |})] |}.

Definition warning : string :=
  "Warning: Some sensor values have exceeded their thresholds!".

(** What the component takes from the browser: how the instant [t] prints
    under [toLocaleString('en-US', {timeZone: 'Asia/Kolkata', hour12: false})]. *)
Class Browser : Type := { localeString : Z -> string }.

(** How [axios.get] settles: fulfilled with [response.data.data], or
    rejected; a rejection carries what [generateRandomData] then reads, the
    instant of [new Date()], the four [Math.random()] in order, and the
    instant of [Date.now()]. *)
Inductive Outcome : Type :=
  | Fulfilled (data : list object)
  | Rejected (tDate : Z) (r1 r2 r3 r4 : number) (tNow : Z).

(** [s.split(sep)] for a separator of one character. *)
Fixpoint split (sep : ascii) (s : string) : list string :=
  match s with
  | EmptyString => [EmptyString]
  | String c s' =>
    if Ascii.eqb c sep then EmptyString :: split sep s'
    else
      match split sep s' with
      | piece :: pieces => String c piece :: pieces
      | [] => [String c EmptyString]
      end
  end.

(** [O[i]] on an array: [undefined] out of range. *)
Definition at_index (O : list string) (i : nat) : value :=
  match nth_error O i with
  | Some s => Str s
  | None => Undefined
  end.

Section Component.

Context {host : Host} {browser : Browser}.

(** [getISTDateTime()] of the component. *)
Definition getISTDateTime (now : Z) : string := localeString now.

(** [Math.random() * (hi - lo) + lo]. *)
Definition in_range (r : number) (lo hi : Z) : number :=
  SFadd prec emax
    (SFmul prec emax r (SFsub prec emax (of_Z hi) (of_Z lo)))
    (of_Z lo).

Definition generateRandomData (tDate : Z) (r1 r2 r3 r4 : number) (tNow : Z)
    : object :=
  let timestamp := getISTDateTime tDate in
  [("strain", Num (in_range r1 400 800));
   ("vibration", Num (in_range r2 100 300));
   ("displacement", Num (in_range r3 20 60));
   ("acceleration", Num (in_range r4 50 150));
   ("timestamp", Str timestamp);
   ("id", Str (time_toString tNow))].

(** [data[sensor] > alerts[sensor].threshold]: the value is converted to a
    number, and the comparison is false when it is NaN.  The conversion
    throws only on an object with an own [toString], or an array holding
    one; the server of this repository sends numbers and [null] in the
    sensor fields, and the entries of [generateRandomData] hold numbers.
    On such an object the flag reads unset here. *)
Definition exceeds (data : object) (sensor : string) (a : Alert) : bool :=
  match Number (Get data sensor) with
  | Some n => SFltb (threshold a) n
  | None => false
  end.

(** [checkAlerts(data)], the [alerts] it reads being those of the state. *)
Definition checkAlerts (data : object) (st : State) : State :=
  let newAlerts :=
    map (fun entry : string * Alert =>
           let (sensor, a) := entry in
           (sensor, {| threshold := threshold a;
                       triggered := exceeds data sensor a |}))
      (alerts st) in
  let hasAlert :=
    existsb (fun entry : string * Alert => triggered (snd entry)) newAlerts in
  {| sensorData := sensorData st;
     latestData := latestData st;
     loading := loading st;
     error := if hasAlert then Some warning else error st;
     alerts := newAlerts |}.

(** [fetchData()], from the call to the end of [finally].  In the fulfilled
    branch [reverse()] reverses [response.data.data] in place, so the reads
    of [length] and [[0]] that follow see the reversed array. *)
Definition fetchData (outcome : Outcome) (st : State) : State :=
  let st1 :=
    match outcome with
    | Fulfilled data =>
      let data := rev data in
      let st' := {| sensorData := data;
                    latestData := latestData st;
                    loading := true;
                    error := error st;
                    alerts := alerts st |} in
      match data with
      | first :: _ =>
        checkAlerts first
          {| sensorData := sensorData st';
             latestData := Some first;
             loading := loading st';
             error := error st';
             alerts := alerts st' |}
      | [] => st'
      end
    | Rejected tDate r1 r2 r3 r4 tNow =>
      let randomData := generateRandomData tDate r1 r2 r3 r4 tNow in
      checkAlerts randomData
        {| sensorData := randomData :: slice (sensorData st) (of_Z 0) (of_Z 19);
           latestData := Some randomData;
           loading := true;
           error := error st;
           alerts := alerts st |}
    end in
  {| sensorData := sensorData st1;
     latestData := latestData st1;
     loading := false;
     error := error st1;
     alerts := alerts st1 |}.

(** The state after the polls [outcomes], each settled before the next
    starts. *)
Fixpoint polls (outcomes : list Outcome) (st : State) : State :=
  match outcomes with
  | [] => st
  | outcome :: rest => polls rest (fetchData outcome st)
  end.

(** The [labels] of [getChartData]: [d.timestamp.split(' ')[1]] of each
    entry; [None] when an entry has no string for timestamp, where the call
    of [split] throws. *)
Fixpoint chart_labels (data : list object) : option (list value) :=
  match data with
  | [] => Some []
  | d :: rest =>
    match Get d "timestamp", chart_labels rest with
    | Str s, Some labels => Some (at_index (split " " s) 1 :: labels)
    | _, _ => None
    end
  end.

(** The [data] of the dataset of [getChartData(label, data, color)]:
    [d[data]] of each entry. *)
Definition chart_series (key : string) (data : list object) : list value :=
  map (fun d => Get d key) data.

End Component.

End App.

(** ** The earlier revision of App.jsx, without alerts *)

Module AppEarlier.

Record State : Type := {
  sensorData : list App.object;
  latestData : option App.object;
  loading : bool
}.

Definition initial : State :=
  {| sensorData := []; latestData := None; loading := true |}.

(** [fetchData()]: [None] when [axios.get] is rejected, which is only
    logged. *)
Definition fetchData (response : option (list App.object)) (st : State) : State :=
  let st1 :=
    match response with
    | Some data =>
      let data := rev data in
      match data with
      | first :: _ =>
        {| sensorData := data; latestData := Some first; loading := true |}
      | [] =>
        {| sensorData := data; latestData := latestData st; loading := true |}
      end
    | None =>
      {| sensorData := sensorData st; latestData := latestData st; loading := true |}
    end in
  {| sensorData := sensorData st1; latestData := latestData st1; loading := false |}.

End AppEarlier.

(** ** Further hosts for the examples *)

(** A host that renders the date with dashes already. *)
Definition dashed_host : Host :=
  {| NumberToString := example_NumberToString;
     toLocaleString := fun t => replace_date (example_toLocaleString t) |}.

(** The en-US rendering without the two-digit options: [M/D/YYYY, HH:mm:ss]
    at the offset +05:30. *)
Definition example_localeString (t : Z) : string :=
  let seconds := (t + 19800000) / 1000 in
  let '(y, m, d) := civil_from_days (seconds / 86400) in
  let s := seconds mod 86400 in
  String.append (time_toString m) (String.append "/" (String.append (time_toString d)
    (String.append "/" (String.append (time_toString y)
      (String.append ", " (String.append (pad2 (s / 3600))
        (String.append ":" (String.append (pad2 (s mod 3600 / 60))
          (String.append ":" (pad2 (s mod 60))))))))))).

Definition example_browser : App.Browser :=
  {| App.localeString := example_localeString |}.

(** The sensors of the dashboard with their thresholds. *)
Definition thresholds (st : App.State) : list (string * number) :=
  map (fun entry : string * App.Alert => (fst entry, App.threshold (snd entry)))
    (App.alerts st).

(** The fulfilled polls of a list carry at most [n] readings each. *)
Definition at_most (n : nat) (outcome : App.Outcome) : bool :=
  match outcome with
  | App.Fulfilled data => (List.length data <=? n)%nat
  | App.Rejected _ _ _ _ _ _ => true
  end.

(** The number is NaN or an infinity. *)
Definition not_finite (n : number) : bool :=
  match n with
  | S754_nan | S754_infinity _ => true
  | S754_zero _ | S754_finite _ _ _ => false
  end.

(** ** Properties of the runtime functions *)

Lemma relative_index_zero (len : Z) :
  0 <= len -> relative_index len (of_Z 0) = 0.
Proof.
  intros Hlen. unfold relative_index. simpl. lia.
Qed.

(** A slice from index 0 is a prefix: [end] elements when [end] is not
    negative, all but the last [-end] otherwise. *)
Lemma slice_from_zero {A : Type} (O : list A) (end_ : number) :
  slice O (of_Z 0) end_ =
  match ToIntegerOrInfinity end_ with
  | NegInf => []
  | Int rel =>
    if rel <? 0 then firstn (List.length O - Z.to_nat (- rel)) O
    else firstn (Z.to_nat rel) O
  | PosInf => O
  end.
Proof.
  unfold slice.
  rewrite relative_index_zero by lia.
  rewrite Z.sub_0_r. simpl skipn.
  unfold relative_index.
  destruct (ToIntegerOrInfinity end_) as [ | rel | ].
  - reflexivity.
  - destruct (rel <? 0) eqn:Hneg.
    + apply Z.ltb_lt in Hneg. f_equal. lia.
    + apply Z.ltb_ge in Hneg.
      destruct (Z.le_ge_cases rel (Z.of_nat (List.length O))) as [Hle | Hge].
      * rewrite Z.min_l by lia. reflexivity.
      * rewrite Z.min_r by lia. rewrite Nat2Z.id.
        rewrite !firstn_all2 by lia. reflexivity.
  - rewrite Nat2Z.id. apply firstn_all.
Qed.

Lemma slice_0_50 {A : Type} (O : list A) :
  slice O (of_Z 0) (of_Z 50) = firstn 50 O.
Proof.
  rewrite slice_from_zero. reflexivity.
Qed.

(** Truncating twice to the same length is truncating once. *)
Lemma firstn_app_firstn {A : Type} (n : nat) (a b : list A) :
  firstn n (a ++ firstn n b) = firstn n (a ++ b).
Proof.
  rewrite !firstn_app, firstn_firstn.
  f_equal. f_equal. lia.
Qed.

Lemma NoDup_firstn {A : Type} (n : nat) (l : list A) :
  NoDup l -> NoDup (firstn n l).
Proof.
  intros Hl. rewrite <- (firstn_skipn n l) in Hl.
  apply NoDup_app_remove_r in Hl. exact Hl.
Qed.

(** The decimal rendering of an instant determines it. *)
Lemma to_int_not_nil (t : Z) :
  Z.to_int t <> Decimal.Pos Decimal.Nil /\ Z.to_int t <> Decimal.Neg Decimal.Nil.
Proof.
  destruct t as [ | p | p ]; simpl; split; try discriminate;
    intros [= Hnil]; exact (DecimalPos.Unsigned.to_uint_nonnil p Hnil).
Qed.

Lemma time_toString_inj (t u : Z) :
  time_toString t = time_toString u -> t = u.
Proof.
  unfold time_toString. intros Heq.
  apply (f_equal NilZero.int_of_string) in Heq.
  destruct (to_int_not_nil t) as [Ht1 Ht2].
  destruct (to_int_not_nil u) as [Hu1 Hu2].
  rewrite !NilZero.isi in Heq by assumption.
  apply DecimalZ.to_int_inj. congruence.
Qed.

Lemma time_toString_not_empty (t : Z) : time_toString t <> "".
Proof.
  unfold time_toString. intros Hempty.
  apply (f_equal NilZero.int_of_string) in Hempty.
  destruct (to_int_not_nil t) as [Ht1 Ht2].
  rewrite NilZero.isi in Hempty by assumption. discriminate.
Qed.

Lemma NoDup_map_inj {A B : Type} (f : A -> B) (l : list A) :
  (forall x y, f x = f y -> x = y) -> NoDup l -> NoDup (map f l).
Proof.
  intros Hinj. induction 1 as [ | x l Hx Hl IH ]; simpl; constructor.
  - intros Hin. apply in_map_iff in Hin. destruct Hin as (y & Hxy & Hy).
    apply Hinj in Hxy. subst y. contradiction.
  - exact IH.
Qed.

Lemma is_undefined_iff (v : value) : is_undefined v = true <-> v = Undefined.
Proof.
  destruct v; simpl; split; intros H; try reflexivity; discriminate.
Qed.

Lemma is_null_iff (v : value) : is_null v = true <-> v = Null.
Proof.
  destruct v; simpl; split; intros H; try reflexivity; discriminate.
Qed.

(** A string that does not read as a numeric literal converts to NaN. *)
Lemma StringToNumber_not_numeric (s : string) :
  is_numeric_string s = false -> StringToNumber s = NaN.
Proof.
  unfold is_numeric_string, StringToNumber.
  destruct (trim_start s) as [ | c t ]; [ discriminate | ].
  destruct (numeric_literal (String c t)) as [ [v rest] | ].
  - intros ->. reflexivity.
  - reflexivity.
Qed.

(** *** Strings no numeric literal starts *)

(** The code of a character no numeric string starts with. *)
Lemma literal_start_code (c : ascii) :
  literal_start c = false ->
  (code c < 48 \/ 57 < code c)
  /\ code c <> 43 /\ code c <> 45 /\ code c <> 46 /\ code c <> 73
  /\ (code c < 9 \/ 13 < code c) /\ code c <> 32
  /\ code c <> 194 /\ code c <> 225 /\ code c <> 226 /\ code c <> 227
  /\ code c <> 239.
Proof.
  unfold literal_start. cbv zeta. intros H.
  repeat (apply orb_false_iff in H; destruct H as [H ?]).
  repeat match goal with
  | H : (_ =? _) = false |- _ => apply Z.eqb_neq in H
  | H : (_ && _) = false |- _ => apply andb_false_iff in H
  end.
  rewrite !Z.leb_gt in *. lia.
Qed.

(** Such a character does not start a white space character. *)
Lemma white_space_not_literal_start (c : ascii) (s : string) :
  literal_start c = false -> white_space (String c s) = None.
Proof.
  intros H. apply literal_start_code in H.
  destruct H as (_ & _ & _ & _ & _ & Hws & H32 & H194 & H225 & H226 & H227 & H239).
  unfold white_space.
  replace ((9 <=? code c) && (code c <=? 13)) with false
    by (symmetry; apply andb_false_iff; rewrite !Z.leb_gt; lia).
  apply Z.eqb_neq in H32, H194, H225, H226, H227, H239.
  rewrite H32, H194, H225, H226, H227, H239. cbn [orb andb].
  destruct s as [ | c2 [ | c3 s3 ] ]; reflexivity.
Qed.

(** A string that starts with a character no numeric literal starts with
    stays as it is under the trim, and holds no literal. *)
Lemma trim_start_not_literal_start (c : ascii) (s : string) :
  literal_start c = false -> trim_start (String c s) = String c s.
Proof.
  intros H. unfold trim_start. cbn [String.length skip_white_space].
  rewrite (white_space_not_literal_start c s H). reflexivity.
Qed.

(** It is no decimal digit. *)
Lemma digit_value_not_literal_start (c : ascii) :
  literal_start c = false -> digit_value 10 c = None.
Proof.
  intros H. destruct (literal_start_code c H) as (Hdigit & _).
  unfold digit_value. cbv zeta.
  destruct ((48 <=? code c) && (code c <=? 57)) eqn:Hd.
  - apply andb_true_iff in Hd. rewrite !Z.leb_le in Hd. lia.
  - destruct ((97 <=? code c) && (code c <=? 102)) eqn:Hl.
    + apply andb_true_iff in Hl. rewrite !Z.leb_le in Hl.
      replace (code c - 87 <? 10) with false by (symmetry; apply Z.ltb_ge; lia).
      reflexivity.
    + destruct ((65 <=? code c) && (code c <=? 70)) eqn:Hu; [ | reflexivity ].
      apply andb_true_iff in Hu. rewrite !Z.leb_le in Hu.
      replace (code c - 55 <? 10) with false by (symmetry; apply Z.ltb_ge; lia).
      reflexivity.
Qed.

(** No literal starts with it. *)
Lemma numeric_literal_not_literal_start (c : ascii) (s : string) :
  literal_start c = false -> numeric_literal (String c s) = None.
Proof.
  intros H. pose proof (literal_start_code c H) as Hc.
  destruct Hc as (Hdigit & H43 & H45 & H46 & H73 & _).
  unfold numeric_literal.
  assert (Hnd : non_decimal (String c s) = None).
  { unfold non_decimal. destruct s as [ | c1 s' ]; [ reflexivity | ].
    replace (code c =? 48) with false by (symmetry; apply Z.eqb_neq; lia).
    cbv zeta. destruct (_ || _); [ reflexivity | ].
    destruct (_ || _); [ reflexivity | ].
    destruct (_ || _); reflexivity. }
  rewrite Hnd.
  assert (Hsign : sign (String c s) = (false, String c s)).
  { unfold sign. apply Z.eqb_neq in H43, H45. rewrite H43, H45. reflexivity. }
  rewrite Hsign. unfold unsigned_decimal.
  assert (Hinf : strip_prefix "Infinity" (String c s) = None).
  { cbn [strip_prefix].
    destruct (Ascii.eqb_spec "I"%char c) as [<- | _]; [ | reflexivity ].
    exfalso. apply H73. reflexivity. }
  rewrite Hinf. cbn [digits]. rewrite (digit_value_not_literal_start c H).
  assert (Hpoint : strip_prefix "." (String c s) = None).
  { cbn [strip_prefix].
    destruct (Ascii.eqb_spec "."%char c) as [<- | _]; [ | reflexivity ].
    exfalso. apply H46. reflexivity. }
  rewrite Hpoint. reflexivity.
Qed.

(** Such a string is not a numeric string, and StringToNumber gives NaN on
    it. *)
Lemma not_literal_start_not_numeric (c : ascii) (s : string) :
  literal_start c = false -> is_numeric_string (String c s) = false.
Proof.
  intros H. unfold is_numeric_string.
  rewrite (trim_start_not_literal_start c s H),
    (numeric_literal_not_literal_start c s H). reflexivity.
Qed.

Lemma StringToNumber_not_literal_start (c : ascii) (s : string) :
  literal_start c = false -> StringToNumber (String c s) = NaN.
Proof.
  intros H. unfold StringToNumber.
  rewrite (trim_start_not_literal_start c s H),
    (numeric_literal_not_literal_start c s H). reflexivity.
Qed.

(** *** The date pattern keeps the length of the string *)

Lemma length_append (s t : string) :
  String.length (String.append s t) = (String.length s + String.length t)%nat.
Proof.
  induction s as [ | c s IH ]; simpl; [ | rewrite IH ]; reflexivity.
Qed.

Lemma span_digits_append (s : string) :
  String.append (fst (span_digits s)) (snd (span_digits s)) = s.
Proof.
  induction s as [ | c s IH ]; simpl; [ reflexivity | ].
  destruct (is_digit c); [ | reflexivity ].
  destruct (span_digits s) as [d rest]. simpl in *. rewrite IH. reflexivity.
Qed.

Lemma strip_prefix_append (p s rest : string) :
  strip_prefix p s = Some rest -> s = String.append p rest.
Proof.
  revert s. induction p as [ | a p IH ]; intros s; simpl.
  - intros [= ->]. reflexivity.
  - destruct s as [ | b s ]; [ discriminate | ].
    destruct (Ascii.eqb_spec a b) as [ <- | ]; [ | discriminate ].
    intros Hrest. rewrite (IH _ Hrest). reflexivity.
Qed.

Lemma match_date_length (s g1 g2 g3 rest : string) :
  match_date s = Some (g1, g2, g3, rest) ->
  String.length s =
  (String.length g1 + 1 + String.length g2 + 1 + String.length g3
   + String.length rest)%nat.
Proof.
  unfold match_date.
  pose proof (span_digits_append s) as H1.
  destruct (span_digits s) as [d1 r1]. simpl in H1.
  destruct d1 as [ | c1 d1 ]; [ discriminate | ].
  destruct (strip_prefix "/" r1) as [ r1' | ] eqn:Hs1; [ | discriminate ].
  apply strip_prefix_append in Hs1.
  pose proof (span_digits_append r1') as H2.
  destruct (span_digits r1') as [d2 r2]. simpl in H2.
  destruct d2 as [ | c2 d2 ]; [ discriminate | ].
  destruct (strip_prefix "/" r2) as [ r2' | ] eqn:Hs2; [ | discriminate ].
  apply strip_prefix_append in Hs2.
  pose proof (span_digits_append r2') as H3.
  destruct (span_digits r2') as [d3 r3]. simpl in H3.
  destruct d3 as [ | c3 d3 ]; [ discriminate | ].
  intros [= <- <- <- <-].
  rewrite <- H1, Hs1, <- H2, Hs2, <- H3.
  repeat first [ rewrite length_append | progress simpl ]. lia.
Qed.

Lemma replace_date_unfold (s : string) :
  replace_date s =
  match match_date s with
  | Some (g1, g2, g3, rest) =>
    String.append g3 (String.append "-" (String.append g1
      (String.append "-" (String.append g2 rest))))
  | None =>
    match s with
    | String c s' => String c (replace_date s')
    | EmptyString => EmptyString
    end
  end.
Proof.
  destruct s; reflexivity.
Qed.

Lemma replace_date_length (s : string) :
  String.length (replace_date s) = String.length s.
Proof.
  induction s as [ | c s IH ]; [ reflexivity | ].
  rewrite replace_date_unfold.
  destruct (match_date (String c s)) as [ [[[g1 g2] g3] rest] | ] eqn:Hm.
  - rewrite (match_date_length _ _ _ _ _ Hm).
    repeat first [ rewrite length_append | progress simpl ]. lia.
  - simpl. rewrite IH. reflexivity.
Qed.

(** ** Properties of the handlers *)

Section Properties.

Context {host : Host}.

#[local] Arguments firstn : simpl never.

(** What [Number()] gives where it does not throw. *)
Lemma converts_Number (v : value) :
  converts v = true -> Number v = Some (converted v).
Proof.
  unfold converts, converted. destruct (Number v); [ reflexivity | discriminate ].
Qed.

Lemma not_converts_Number (v : value) :
  converts v = false -> Number v = None.
Proof.
  unfold converts. destruct (Number v); [ discriminate | reflexivity ].
Qed.

(** [newData] is built exactly when the four conversions succeed. *)
Lemma newData_converts (body : list (string * value)) (tDate tNow : Z) :
  newData (Get body "strain") (Get body "vibration") (Get body "displacement")
    (Get body "acceleration") tDate tNow
  = if converts (Get body "strain") && converts (Get body "vibration")
       && converts (Get body "displacement") && converts (Get body "acceleration")
    then Some (reading_of body tDate tNow) else None.
Proof.
  unfold newData, reading_of, converts, converted.
  destruct (Number (Get body "strain")), (Number (Get body "vibration")),
    (Number (Get body "displacement")), (Number (Get body "acceleration"));
    reflexivity.
Qed.

(** The three ways the POST route ends. *)
Lemma post_cases (body : list (string * value)) (tDate tNow : Z)
    (store : DataStore) :
  post_sensor_data body tDate tNow store =
  if missing (Get body "strain") (Get body "vibration")
       (Get body "displacement") (Get body "acceleration")
  then (Sent {| status := 400;
                payload := Message false
                  "Missing required fields: strain, vibration, displacement, or acceleration" |},
        store)
  else if converts (Get body "strain") && converts (Get body "vibration")
          && converts (Get body "displacement")
          && converts (Get body "acceleration")
  then (Sent {| status := 200;
                payload := Stored true "Data stored successfully in memory"
                             (reading_of body tDate tNow) |},
        {| sensorData := firstn 50 (reading_of body tDate tNow :: sensorData store) |})
  else (Threw, store).
Proof.
  unfold post_sensor_data. destruct (missing _ _ _ _); [ reflexivity | ].
  rewrite newData_converts. destruct (_ && _); [ | reflexivity ].
  unfold unshift. f_equal. f_equal.
  destruct (_ <? _)%nat eqn:Hlen.
  - apply slice_0_50.
  - apply Nat.ltb_ge in Hlen. symmetry. apply firstn_all2. exact Hlen.
Qed.

Lemma present_cases (body : list (string * value)) :
  present body
  = negb (missing (Get body "strain") (Get body "vibration")
            (Get body "displacement") (Get body "acceleration"))
    && (converts (Get body "strain") && converts (Get body "vibration")
        && converts (Get body "displacement")
        && converts (Get body "acceleration")).
Proof.
  unfold present. rewrite !andb_assoc. reflexivity.
Qed.

(** An accepted POST answers 200 with the reading it built and keeps the
    first 50 of the store with that reading in front. *)
Lemma post_accepted (body : list (string * value)) (tDate tNow : Z)
    (store : DataStore) :
  present body = true ->
  post_sensor_data body tDate tNow store =
  (Sent {| status := 200;
           payload := Stored true "Data stored successfully in memory"
                        (reading_of body tDate tNow) |},
   {| sensorData := firstn 50 (reading_of body tDate tNow :: sensorData store) |}).
Proof.
  rewrite present_cases, post_cases. intros Hpresent.
  apply andb_true_iff in Hpresent. destruct Hpresent as [Hmissing Hconverts].
  apply negb_true_iff in Hmissing. rewrite Hmissing, Hconverts. reflexivity.
Qed.

(** A POST that is not accepted, rejected with 400 or ended by a throw,
    leaves the store as it was. *)
Lemma post_rejected (body : list (string * value)) (tDate tNow : Z)
    (store : DataStore) :
  present body = false ->
  snd (post_sensor_data body tDate tNow store) = store.
Proof.
  rewrite present_cases, post_cases. intros Hpresent.
  destruct (missing _ _ _ _); [ reflexivity | ].
  simpl in Hpresent. rewrite Hpresent. reflexivity.
Qed.

(** The store after a run of accepted POSTs, from any store within the
    bound. *)
Lemma run_posts (posts : list Post) :
  Forall (fun p => post_present p = true) posts ->
  forall store : DataStore,
  (List.length (sensorData store) <= 50)%nat ->
  sensorData (run (map post_request posts) store) =
  firstn 50 (rev (map post_reading posts) ++ sensorData store).
Proof.
  induction 1 as [ | [[body tDate] tNow] posts Hp Hrest IH ]; intros store Hlen.
  - simpl. symmetry. apply firstn_all2. exact Hlen.
  - simpl in Hp. simpl run. rewrite (post_accepted _ _ _ _ Hp). simpl snd.
    rewrite IH.
    + unfold sensorData at 1. simpl map. simpl rev.
      rewrite firstn_app_firstn, <- app_assoc. reflexivity.
    + simpl. rewrite length_firstn. lia.
Qed.

Lemma run_posts_from_start (posts : list Post) :
  Forall (fun p => post_present p = true) posts ->
  sensorData (run (map post_request posts) localDataStore) =
  firstn 50 (rev (map post_reading posts)).
Proof.
  intros Hposts. rewrite run_posts; simpl; try lia; try assumption.
  rewrite app_nil_r. reflexivity.
Qed.

(** The store a request leaves: an accepted POST puts its reading in front
    and keeps 50, any other request leaves the store as it was. *)
Lemma handle_snd (rq : Request) (store : DataStore) :
  snd (handle rq store) =
  match rq with
  | POST_sensor_data body tDate tNow =>
    if present body
    then {| sensorData := firstn 50 (reading_of body tDate tNow :: sensorData store) |}
    else store
  | _ => store
  end.
Proof.
  destruct rq as [body tDate tNow | query_limit | | ]; cbn [handle].
  - destruct (present body) eqn:Hp.
    + rewrite (post_accepted _ _ _ _ Hp). reflexivity.
    + apply post_rejected. exact Hp.
  - unfold get_sensor_data. destruct (parseInt query_limit); reflexivity.
  - unfold get_sensor_data_latest. destruct (_ <? _)%nat; reflexivity.
  - reflexivity.
Qed.

(** Each handler keeps the store within the bound. *)
Lemma handle_bounded (rq : Request) (store : DataStore) :
  (List.length (sensorData store) <= 50)%nat ->
  (List.length (sensorData (snd (handle rq store))) <= 50)%nat.
Proof.
  intros Hlen. rewrite handle_snd.
  destruct rq as [body tDate tNow | query_limit | | ]; try exact Hlen.
  destruct (present body); [ | exact Hlen ].
  cbn [sensorData]. rewrite length_firstn. lia.
Qed.

Lemma run_bounded (rqs : list Request) :
  forall store : DataStore,
  (List.length (sensorData store) <= 50)%nat ->
  (List.length (sensorData (run rqs store)) <= 50)%nat.
Proof.
  induction rqs as [ | rq rqs IH ]; intros store Hlen; simpl.
  - exact Hlen.
  - apply IH. apply handle_bounded. exact Hlen.
Qed.

(** C1.  After any sequence of N accepted POSTs served from the empty store,
    the store holds the last 50 readings built, newest first, which are
    min(N, 50) readings; and when the sequence is 50 POSTs followed by a 51st,
    the 51st reading takes the front, the 49 newest of the 50 stay in their
    order behind it, and the reading inserted first, which was the last of the
    store, is the one dropped. *)
Theorem ingest_sequence_keeps_last_50 (posts : list Post) :
  Forall (fun p => post_present p = true) posts ->
  let inserted := map post_reading posts in
  let store := run (map post_request posts) localDataStore in
  sensorData store = rev (skipn (List.length inserted - 50) inserted)
  /\ List.length (sensorData store) = Nat.min (List.length posts) 50
  /\ forall (before : list Post) (p : Post),
       posts = before ++ [p] ->
       List.length before = 50%nat ->
       exists (first : Reading) (others : list Reading),
         map post_reading before = first :: others
         /\ List.length others = 49%nat
         /\ sensorData (run (map post_request before) localDataStore)
            = rev others ++ [first]
         /\ sensorData store = post_reading p :: rev others.
Proof.
  intros Hposts inserted store.
  assert (Hstore : sensorData store = firstn 50 (rev inserted))
    by (apply run_posts_from_start; exact Hposts).
  split; [ | split ].
  - rewrite Hstore. apply firstn_rev.
  - rewrite Hstore, length_firstn, length_rev. unfold inserted.
    rewrite length_map. lia.
  - intros before p Heq Hlen.
    destruct (map post_reading before) as [ | first others ] eqn:Hbefore.
    + apply (f_equal (@List.length Reading)) in Hbefore.
      rewrite length_map in Hbefore. simpl in Hbefore. lia.
    + assert (Hothers : List.length others = 49%nat).
      { apply (f_equal (@List.length Reading)) in Hbefore.
        rewrite length_map in Hbefore. simpl in Hbefore. lia. }
      exists first, others. split; [ reflexivity | split; [ exact Hothers | ] ].
      assert (Hrev : List.length (rev others) = 49%nat)
        by (rewrite length_rev; exact Hothers).
      split.
      * rewrite run_posts_from_start.
        -- rewrite Hbefore. simpl rev. apply firstn_all2.
           rewrite length_app. simpl. lia.
        -- subst posts. apply Forall_app in Hposts. tauto.
      * rewrite Hstore. unfold inserted. subst posts.
        rewrite map_app, Hbefore, rev_app_distr. cbn [map rev app].
        change 50%nat with (S 49). rewrite firstn_cons. f_equal.
        rewrite firstn_app, Hrev, Nat.sub_diag, firstn_all2 by lia.
        rewrite firstn_O. apply app_nil_r.
Qed.

(** C2.  Every request (POST, GET with any limit, latest, download) served
    on a store of at most 50 readings leaves a store of at most 50
    readings. *)
Theorem store_holds_at_most_50 (rq : Request) (store : DataStore) :
  (List.length (sensorData store) <= 50)%nat ->
  (List.length (sensorData (snd (handle rq store))) <= 50)%nat.
Proof.
  apply handle_bounded.
Qed.

(** *** The presence check *)

Lemma missing_iff (a b c d : value) :
  missing a b c d = true <->
  (a = Undefined \/ a = Null) \/ (b = Undefined \/ b = Null)
  \/ (c = Undefined \/ c = Null) \/ (d = Undefined \/ d = Null).
Proof.
  unfold missing. rewrite !orb_true_iff, !is_undefined_iff, !is_null_iff.
  tauto.
Qed.

Lemma missing_fields_iff (body : list (string * value)) :
  missing (Get body "strain") (Get body "vibration") (Get body "displacement")
    (Get body "acceleration") = true <->
  exists k, In k required_fields /\ (Get body k = Undefined \/ Get body k = Null).
Proof.
  rewrite missing_iff. split.
  - intros [H | [H | [H | H]]].
    + exists "strain". simpl. tauto.
    + exists "vibration". simpl. tauto.
    + exists "displacement". simpl. tauto.
    + exists "acceleration". simpl. tauto.
  - intros (k & Hk & H). simpl in Hk.
    destruct Hk as [<- | [<- | [<- | [<- | []]]]]; tauto.
Qed.

(** C4.  The POST route answers 400 exactly when one of strain, vibration,
    displacement, acceleration reads as undefined or null in the body; the
    answer then has success false and a message that names the four fields,
    and the store is the one before the call; a body whose four fields are
    zeros is answered 200. *)
Theorem post_rejects_exactly_missing_fields (body : list (string * value))
    (tDate tNow : Z) (store : DataStore) :
  let answer := post_sensor_data body tDate tNow store in
  (sent_status (fst answer) = Some 400 <->
   exists k, In k required_fields
             /\ (Get body k = Undefined \/ Get body k = Null))
  /\ (sent_status (fst answer) = Some 400 ->
      fst answer
      = Sent {| status := 400; payload := Message false missing_message |}
      /\ snd answer = store)
  /\ (forall k, In k required_fields -> occurs_in k missing_message = true)
  /\ ((forall k, In k required_fields ->
       exists s, Get body k = Num (S754_zero s)) ->
      sent_status (fst answer) = Some 200).
Proof.
  intros answer. unfold answer. rewrite post_cases.
  split; [ | split; [ | split ] ].
  - rewrite <- missing_fields_iff.
    destruct (missing _ _ _ _); [ split; reflexivity | ].
    destruct (_ && _); split; discriminate.
  - destruct (missing _ _ _ _); [ intros _; split; reflexivity | ].
    destruct (_ && _); discriminate.
  - intros k Hk. simpl in Hk.
    destruct Hk as [<- | [<- | [<- | [<- | []]]]]; reflexivity.
  - intros Hzero.
    destruct (Hzero "strain") as [s1 H1]; [ simpl; tauto | ].
    destruct (Hzero "vibration") as [s2 H2]; [ simpl; tauto | ].
    destruct (Hzero "displacement") as [s3 H3]; [ simpl; tauto | ].
    destruct (Hzero "acceleration") as [s4 H4]; [ simpl; tauto | ].
    rewrite H1, H2, H3, H4. reflexivity.
Qed.

(** *** The read routes *)

Lemma get_sensor_data_store (query_limit : value) (store : DataStore) :
  snd (get_sensor_data query_limit store) = store.
Proof.
  unfold get_sensor_data. destruct (parseInt query_limit); reflexivity.
Qed.

Lemma get_sensor_data_latest_store (store : DataStore) :
  snd (get_sensor_data_latest store) = store.
Proof.
  unfold get_sensor_data_latest. destruct (_ <? _)%nat; reflexivity.
Qed.

Lemma get_sensor_data_download_store (store : DataStore) :
  snd (get_sensor_data_download store) = store.
Proof. reflexivity. Qed.

Lemma latest_empty (store : DataStore) :
  sensorData store = [] ->
  get_sensor_data_latest store =
  ({| status := 404; payload := Message false "No data available" |}, store).
Proof.
  unfold get_sensor_data_latest. intros ->. reflexivity.
Qed.

Lemma latest_head (store : DataStore) (r : Reading) (rest : list Reading) :
  sensorData store = r :: rest ->
  get_sensor_data_latest store =
  ({| status := 200; payload := Latest true (Some r) |}, store).
Proof.
  unfold get_sensor_data_latest. intros ->. reflexivity.
Qed.

(** C5.  The latest-reading route answers 200 with success true and the
    head of the store when the store is not empty; it answers 404 with
    success false exactly when the store is empty; and after one accepted
    POST on the empty store it answers with the reading that POST built. *)
Theorem latest_is_head_or_not_found (store : DataStore) :
  (forall r rest, sensorData store = r :: rest ->
     fst (get_sensor_data_latest store)
     = {| status := 200; payload := Latest true (Some r) |})
  /\ (sensorData store = [] ->
      fst (get_sensor_data_latest store)
      = {| status := 404; payload := Message false "No data available" |})
  /\ (status (fst (get_sensor_data_latest store)) = 404
      <-> sensorData store = [])
  /\ (forall body tDate tNow,
        present body = true ->
        fst (get_sensor_data_latest
               (snd (post_sensor_data body tDate tNow localDataStore)))
        = {| status := 200;
             payload := Latest true (Some (reading_of body tDate tNow)) |}).
Proof.
  split; [ | split; [ | split ] ].
  - intros r rest Hstore. rewrite (latest_head _ _ _ Hstore). reflexivity.
  - intros Hstore. rewrite (latest_empty _ Hstore). reflexivity.
  - destruct (sensorData store) as [ | r rest ] eqn:Hstore.
    + rewrite (latest_empty _ Hstore). split; reflexivity.
    + rewrite (latest_head _ _ _ Hstore). split; discriminate.
  - intros body tDate tNow Hp. rewrite (post_accepted _ _ _ _ Hp).
    cbn [snd]. rewrite (latest_head _ (reading_of body tDate tNow) []);
      reflexivity.
Qed.

(** C9.  The GET route with any limit, the latest-reading route and the
    download route return the store they were given. *)
Theorem reads_leave_store_unchanged (store : DataStore) (query_limit : value) :
  snd (get_sensor_data query_limit store) = store
  /\ snd (get_sensor_data_latest store) = store
  /\ snd (get_sensor_data_download store) = store.
Proof.
  split; [ | split ].
  - apply get_sensor_data_store.
  - apply get_sensor_data_latest_store.
  - apply get_sensor_data_download_store.
Qed.

(** *** The reading an accepted POST builds *)

(** C6.  An accepted POST, its four fields present, not null and converted
    by Number(), is answered 200 with the reading it built; that reading is
    the head of the store after the call, ahead of the readings stored before;
    its id is the non-empty decimal string of the instant read by Date.now(),
    its timestamp is the date string of getISTDateTime, as long as the host's
    rendering of the date; and each field given as a number is stored as that
    same number. *)
Theorem post_stores_and_returns_reading (body : list (string * value))
    (tDate tNow : Z) (store : DataStore) :
  present body = true ->
  let answer := post_sensor_data body tDate tNow store in
  exists r : Reading,
    fst answer
    = Sent {| status := 200;
              payload := Stored true "Data stored successfully in memory" r |}
    /\ sensorData (snd answer) = firstn 50 (r :: sensorData store)
    /\ nth_error (sensorData (snd answer)) 0 = Some r
    /\ id r = time_toString tNow /\ id r <> ""
    /\ timestamp r = getISTDateTime tDate
    /\ String.length (timestamp r) = String.length (toLocaleString tDate)
    /\ (forall n, Get body "strain" = Num n -> strain r = n)
    /\ (forall n, Get body "vibration" = Num n -> vibration r = n)
    /\ (forall n, Get body "displacement" = Num n -> displacement r = n)
    /\ (forall n, Get body "acceleration" = Num n -> acceleration r = n).
Proof.
  intros Hp answer. unfold answer. rewrite (post_accepted _ _ _ _ Hp).
  exists (reading_of body tDate tNow). cbn [fst snd sensorData].
  repeat split.
  - apply time_toString_not_empty.
  - apply replace_date_length.
  - intros n Hn. cbn. rewrite Hn. reflexivity.
  - intros n Hn. cbn. rewrite Hn. reflexivity.
  - intros n Hn. cbn. rewrite Hn. reflexivity.
  - intros n Hn. cbn. rewrite Hn. reflexivity.
Qed.

(** *** What the POST route accepts *)

(** [Number] converts every boolean, number and string. *)
Lemma primitive_converts (v : value) :
  is_primitive v = true -> converts v = true.
Proof.
  destruct v as [ | | [ | ] | n | s | l | ps ]; try discriminate; reflexivity.
Qed.

(** [Number] converts a plain object exactly when it has no own property
    [toString]. *)
Lemma object_converts (properties : list (string * value)) :
  converts (Object properties) = negb (HasOwnProperty properties "toString").
Proof.
  unfold converts, Number, ToString.
  destruct (HasOwnProperty properties "toString"); reflexivity.
Qed.

(** Four fields that are neither undefined nor null pass the presence
    check. *)
Lemma fields_not_missing (body : list (string * value)) :
  (forall k, In k required_fields ->
     Get body k <> Undefined /\ Get body k <> Null) ->
  missing (Get body "strain") (Get body "vibration") (Get body "displacement")
    (Get body "acceleration") = false.
Proof.
  intros Hfields. destruct (missing _ _ _ _) eqn:Hm; [ | reflexivity ].
  apply missing_fields_iff in Hm. destruct Hm as (k & Hk & Hmiss).
  destruct (Hfields k Hk) as [Hu Hn]. tauto.
Qed.

Lemma fields_convert (body : list (string * value)) :
  converts (Get body "strain") && converts (Get body "vibration")
  && converts (Get body "displacement") && converts (Get body "acceleration")
  = true <->
  forall k, In k required_fields -> converts (Get body k) = true.
Proof.
  rewrite !andb_true_iff. split.
  - intros [[[Hs Hv] Hd] Ha] k Hk. simpl in Hk.
    destruct Hk as [<- | [<- | [<- | [<- | []]]]]; assumption.
  - intros H. repeat split; apply H; simpl; tauto.
Qed.

(** C10, as the code has it.  The POST route checks presence only and then
    converts: a body whose four fields are neither undefined nor null is never
    answered 400, whatever the types of the values.  When [Number] converts
    the four values, which it does for every boolean, number and string and
    for a plain object with no own property [toString], the body is answered
    200 and the reading built is stored in front; a field given as a string
    that is not a numeric literal, such as "abc" or any string that starts
    with a character no literal starts with, is stored as NaN.  When [Number]
    throws on one of the four values, which it does for an object with an own
    property [toString], the handler throws at lines 73-76, before its [try]:
    it sends no answer and leaves the store as it was. *)
Theorem post_accepts_what_Number_converts (body : list (string * value))
    (tDate tNow : Z) (store : DataStore) :
  (forall k, In k required_fields ->
     Get body k <> Undefined /\ Get body k <> Null) ->
  let answer := post_sensor_data body tDate tNow store in
  sent_status (fst answer) <> Some 400
  /\ ((forall k, In k required_fields -> converts (Get body k) = true) ->
      exists r : Reading,
        fst answer
        = Sent {| status := 200;
                  payload := Stored true "Data stored successfully in memory" r |}
        /\ nth_error (sensorData (snd answer)) 0 = Some r
        /\ (forall s, is_numeric_string s = false ->
            (Get body "strain" = Str s -> strain r = NaN)
            /\ (Get body "vibration" = Str s -> vibration r = NaN)
            /\ (Get body "displacement" = Str s -> displacement r = NaN)
            /\ (Get body "acceleration" = Str s -> acceleration r = NaN)))
  /\ ((exists k, In k required_fields /\ converts (Get body k) = false) ->
      answer = (Threw, store))
  /\ (forall v, is_primitive v = true -> converts v = true)
  /\ (forall properties,
        converts (Object properties)
        = negb (HasOwnProperty properties "toString"))
  /\ is_numeric_string "abc" = false
  /\ (forall c t, literal_start c = false ->
        is_numeric_string (String c t) = false).
Proof.
  intros Hfields answer.
  pose proof (fields_not_missing body Hfields) as Hm.
  unfold answer. rewrite post_cases, Hm.
  split; [ | split; [ | split; [ | split; [ | split; [ | split ] ] ] ] ].
  - destruct (_ && _); discriminate.
  - intros Hconv. apply fields_convert in Hconv. rewrite Hconv.
    exists (reading_of body tDate tNow). cbn [fst snd sensorData].
    split; [ reflexivity | split; [ reflexivity | ] ].
    intros s Hs. repeat split; intros Hk; cbn; unfold converted;
      rewrite Hk; cbn; apply StringToNumber_not_numeric; exact Hs.
  - intros (k & Hk & Hconv).
    destruct (_ && _) eqn:Hall; [ | reflexivity ].
    rewrite (proj1 (fields_convert body) Hall k Hk) in Hconv. discriminate.
  - exact primitive_converts.
  - exact object_converts.
  - reflexivity.
  - exact not_literal_start_not_numeric.
Qed.

(** *** The exported sheet *)

(** Adding the readings one by one appends one row per reading, in order,
    and keeps the name and the columns. *)
Lemma add_rows (l : list Reading) :
  forall ws : ExcelJS.Worksheet,
  let ws' := fold_left (fun ws data => ExcelJS.addRow (property data) ws) l ws in
  ExcelJS.name ws' = ExcelJS.name ws
  /\ ExcelJS.columns ws' = ExcelJS.columns ws
  /\ ExcelJS.rows ws' =
     ExcelJS.rows ws
     ++ map (fun data =>
               {| ExcelJS.values :=
                    map (fun c => property data (ExcelJS.key c)) (ExcelJS.columns ws);
                  ExcelJS.font := ExcelJS.plain |}) l.
Proof.
  induction l as [ | data l IH ]; intros ws; simpl.
  - rewrite app_nil_r. auto.
  - destruct (IH (ExcelJS.addRow (property data) ws)) as (Hname & Hcols & Hrows).
    rewrite Hname, Hcols, Hrows. simpl. rewrite <- app_assoc. auto.
Qed.

(** C7.  The download route answers with a sheet built from the whole store:
    its columns are headed Timestamp, Strain, Vibration, Displacement,
    Acceleration, ID in that order, its first row holds those headers in
    bold, and the rows after it are the rows of the stored readings in the
    order of the store, newest first, one each; with 3 readings stored it
    has 4 rows. *)
Theorem download_sheet_rows (store : DataStore) :
  exists ws : ExcelJS.Worksheet,
    get_sensor_data_download store
    = ({| status := 200; payload := File "sensor_data.xlsx" ws |}, store)
    /\ map ExcelJS.header (ExcelJS.columns ws)
       = ["Timestamp"; "Strain"; "Vibration"; "Displacement"; "Acceleration"; "ID"]
    /\ ExcelJS.rows ws = header_row :: map data_row (sensorData store)
    /\ List.length (ExcelJS.rows ws) = S (List.length (sensorData store))
    /\ (List.length (sensorData store) = 3%nat ->
        List.length (ExcelJS.rows ws) = 4%nat).
Proof.
  unfold get_sensor_data_download.
  destruct (add_rows (sensorData store)
              (ExcelJS.set_columns sheet_columns (ExcelJS.addWorksheet "Sensor Data")))
    as (Hname & Hcols & Hrows).
  eexists. split; [ reflexivity | ].
  assert (Hall : ExcelJS.rows
            (ExcelJS.set_row_font 1 {| ExcelJS.bold := true |}
               (fold_left (fun ws data => ExcelJS.addRow (property data) ws)
                  (sensorData store)
                  (ExcelJS.set_columns sheet_columns
                     (ExcelJS.addWorksheet "Sensor Data"))))
          = header_row :: map data_row (sensorData store)).
  { unfold ExcelJS.set_row_font. cbn [ExcelJS.rows]. rewrite Hrows. reflexivity. }
  split; [ | split; [ exact Hall | split ] ].
  - cbn [ExcelJS.set_row_font ExcelJS.columns]. rewrite Hcols. reflexivity.
  - rewrite Hall. simpl. rewrite length_map. reflexivity.
  - intros H3. rewrite Hall. simpl. rewrite length_map, H3. reflexivity.
Qed.

(** *** Identifiers *)

(** The ids of the store after a run are the renderings of the instants of
    its accepted POSTs, newest first, ahead of the ids stored before. *)
Lemma run_ids (rqs : list Request) :
  forall store : DataStore,
  (List.length (sensorData store) <= 50)%nat ->
  map id (sensorData (run rqs store)) =
  firstn 50 (rev (map time_toString (accepted_instants rqs))
             ++ map id (sensorData store)).
Proof.
  induction rqs as [ | rq rqs IH ]; intros store Hlen.
  - simpl. symmetry. apply firstn_all2. rewrite length_map. exact Hlen.
  - cbn [run]. rewrite IH by (apply handle_bounded; exact Hlen).
    rewrite handle_snd.
    destruct rq as [body tDate tNow | query_limit | | ];
      cbn [accepted_instants]; try reflexivity.
    destruct (present body); [ | reflexivity ].
    cbn [sensorData map rev].
    rewrite <- firstn_map, firstn_app_firstn, <- app_assoc. reflexivity.
Qed.

(** C8, as the code has it.  The id of a reading is the decimal string of
    the instant Date.now() read when it was accepted, so two readings have
    the same id exactly when their POSTs read the same instant; when no two
    accepted POSTs of a run read the same instant, the ids in the store are
    pairwise distinct. *)
Theorem ids_distinct_when_instants_distinct (rqs : list Request) :
  NoDup (accepted_instants rqs) ->
  NoDup (map id (sensorData (run rqs localDataStore)))
  /\ forall body body' tDate tDate' tNow tNow',
       id (reading_of body tDate tNow) = id (reading_of body' tDate' tNow')
       <-> tNow = tNow'.
Proof.
  intros Hinstants. split.
  - rewrite run_ids by (simpl; lia). simpl map. rewrite app_nil_r.
    apply NoDup_firstn, NoDup_rev, NoDup_map_inj.
    + apply time_toString_inj.
    + exact Hinstants.
  - intros body body' tDate tDate' tNow tNow'. cbn. split.
    + apply time_toString_inj.
    + intros ->. reflexivity.
Qed.

(** *** The limit of the GET route *)

Lemma get_sensor_data_returned (query_limit : value) (parsed : number)
    (store : DataStore) :
  parseInt query_limit = Some parsed ->
  returned (get_sensor_data query_limit store) =
  slice (sensorData store) (of_Z 0) (or_else parsed (of_Z 10)).
Proof. intros Hparsed. unfold get_sensor_data. rewrite Hparsed. reflexivity. Qed.

(** A limit that parses to a falsy number (NaN or a zero) is replaced by
    10. *)
Lemma get_sensor_data_default (query_limit : value) (parsed : number)
    (store : DataStore) :
  parseInt query_limit = Some parsed -> ToBoolean parsed = false ->
  returned (get_sensor_data query_limit store) = firstn 10 (sensorData store).
Proof.
  intros Hparsed Hfalsy. rewrite (get_sensor_data_returned _ _ _ Hparsed).
  unfold or_else. rewrite Hfalsy, slice_from_zero. reflexivity.
Qed.

Lemma integer_not_zero_truthy (n : number) (k : Z) :
  ToIntegerOrInfinity n = Int k -> k <> 0 -> ToBoolean n = true.
Proof.
  destruct n as [ s | [ | ] | | s m e ]; simpl; intros [= <-] Hk;
    try reflexivity; contradiction.
Qed.

(** A limit that parses to a positive integer [k] gives the first [k]
    readings, all of them when there are fewer. *)
Lemma get_sensor_data_positive (query_limit : value) (parsed : number)
    (store : DataStore) (k : Z) :
  parseInt query_limit = Some parsed ->
  ToIntegerOrInfinity parsed = Int k -> 0 < k ->
  returned (get_sensor_data query_limit store)
  = firstn (Z.to_nat k) (sensorData store).
Proof.
  intros Hparsed Hk Hpos. rewrite (get_sensor_data_returned _ _ _ Hparsed).
  unfold or_else.
  rewrite (integer_not_zero_truthy _ k Hk) by lia.
  rewrite slice_from_zero, Hk.
  destruct (k <? 0) eqn:Hneg; [ apply Z.ltb_lt in Hneg; lia | reflexivity ].
Qed.

(** A limit that parses to a negative integer [k] is passed to [slice] as it
    is, and gives all but the last [-k] readings. *)
Lemma get_sensor_data_negative (query_limit : value) (parsed : number)
    (store : DataStore) (k : Z) :
  parseInt query_limit = Some parsed ->
  ToIntegerOrInfinity parsed = Int k -> k < 0 ->
  returned (get_sensor_data query_limit store)
  = firstn (List.length (sensorData store) - Z.to_nat (- k)) (sensorData store).
Proof.
  intros Hparsed Hk Hneg. rewrite (get_sensor_data_returned _ _ _ Hparsed).
  unfold or_else.
  rewrite (integer_not_zero_truthy _ k Hk) by lia.
  rewrite slice_from_zero, Hk.
  destruct (k <? 0) eqn:Hlt; [ reflexivity | apply Z.ltb_ge in Hlt; lia ].
Qed.

(** C3, where the code departs from it.  With limit=-5 the GET route returns
    all but the 5 oldest readings of the store, while with limit=10, with no
    limit, with limit=0 and with limit=abc it returns the first 10; on a store
    of 12 readings that is 7 readings against 10. *)
Theorem negative_limit_is_not_the_default (store : DataStore) :
  returned (get_sensor_data (Str "-5") store)
  = firstn (List.length (sensorData store) - 5) (sensorData store)
  /\ returned (get_sensor_data (Str "10") store) = firstn 10 (sensorData store)
  /\ returned (get_sensor_data Undefined store) = firstn 10 (sensorData store)
  /\ returned (get_sensor_data (Str "0") store) = firstn 10 (sensorData store)
  /\ returned (get_sensor_data (Str "abc") store) = firstn 10 (sensorData store)
  /\ List.length (returned (get_sensor_data (Str "-5") (example_store 12))) = 7%nat
  /\ List.length (returned (get_sensor_data (Str "10") (example_store 12))) = 10%nat.
Proof.
  split; [ | split; [ | split; [ | split; [ | split; [ | split ] ] ] ] ].
  - apply (get_sensor_data_negative (Str "-5") _ store (-5) eq_refl); reflexivity.
  - apply (get_sensor_data_positive (Str "10") _ store 10 eq_refl); reflexivity.
  - apply (get_sensor_data_default Undefined _ store eq_refl). reflexivity.
  - apply (get_sensor_data_default (Str "0") _ store eq_refl). reflexivity.
  - apply (get_sensor_data_default (Str "abc") _ store eq_refl). reflexivity.
  - rewrite (get_sensor_data_negative (Str "-5") _ _ (-5) eq_refl) by reflexivity.
    vm_compute. reflexivity.
  - rewrite (get_sensor_data_positive (Str "10") _ _ 10 eq_refl) by reflexivity.
    vm_compute. reflexivity.
Qed.

End Properties.

(** ** The statements at concrete inputs *)

(** 51 accepted POSTs from the empty store: the store holds the readings
    of the last 50, newest first. *)
Lemma ingest_51_example :
  sensorData (example_store 51)
  = rev (skipn 1 (map (post_reading (host := example_host))
                    (example_posts 51 1730512345678)))
  /\ List.length (sensorData (example_store 51)) = 50%nat.
Proof.
  assert (Hposts : Forall (fun p => post_present (host := example_host) p = true)
                     (example_posts 51 1730512345678))
    by (repeat constructor).
  destruct (ingest_sequence_keeps_last_50 (host := example_host)
              (example_posts 51 1730512345678) Hposts) as (Hstore & Hlen & _).
  split; [ exact Hstore | exact Hlen ].
Defined.

(** One more POST on a store of 50 readings leaves 50. *)
Lemma post_on_full_store_example :
  (List.length
     (sensorData
        (snd (handle (host := example_host)
                (POST_sensor_data
                   (body_of (Num (of_Z 7)) (Num (of_Z 5)) (Num (of_Z 0)) (Num (of_Z 1)))
                   1730512999000 1730512999000)
                (example_store 50)))) <= 50)%nat.
Proof.
  apply (store_holds_at_most_50 (host := example_host)).
  vm_compute. apply le_n.
Defined.

(** The body [{strain: 10, vibration: 0, displacement: 0, acceleration: 0}]
    is accepted, and the reading returned holds those numbers, the id of the
    instant and the date string. *)
Lemma post_zero_values_example :
  exists r : Reading,
    fst (post_sensor_data (host := example_host)
           (body_of (Num (of_Z 10)) (Num (of_Z 0)) (Num (of_Z 0)) (Num (of_Z 0)))
           1730512345678 1730512345679 localDataStore)
    = Sent {| status := 200;
              payload := Stored true "Data stored successfully in memory" r |}
    /\ r = {| strain := of_Z 10; vibration := S754_zero false;
              displacement := S754_zero false; acceleration := S754_zero false;
              timestamp := "2024-11-02, 07:22:25"; id := "1730512345679" |}.
Proof.
  destruct (post_stores_and_returns_reading (host := example_host)
              (body_of (Num (of_Z 10)) (Num (of_Z 0)) (Num (of_Z 0)) (Num (of_Z 0)))
              1730512345678 1730512345679 localDataStore eq_refl)
    as (r & Hanswer & _ & _ & Hid & _ & Htime & _ & Hs & Hv & Hd & Ha).
  exists r. split; [ exact Hanswer | ].
  destruct r as [s v d a time ident]. simpl in *.
  rewrite (Hs _ eq_refl), (Hv _ eq_refl), (Hd _ eq_refl), (Ha _ eq_refl).
  rewrite Hid, Htime. vm_compute. reflexivity.
Defined.

(** Two POSTs accepted within the same millisecond: both readings are in
    the store, at positions 0 and 1, under the same id. *)
Lemma same_millisecond_same_id :
  exists (store : DataStore) (ri rj : Reading),
    store = run (host := example_host)
              [POST_sensor_data
                 (body_of (Num (of_Z 10)) (Num (of_Z 5)) (Num (of_Z 0)) (Num (of_Z 1)))
                 1730512345678 1730512345678;
               POST_sensor_data
                 (body_of (Num (of_Z 11)) (Num (of_Z 5)) (Num (of_Z 0)) (Num (of_Z 1)))
                 1730512345678 1730512345678]
              localDataStore
    /\ nth_error (sensorData store) 0 = Some ri
    /\ nth_error (sensorData store) 1 = Some rj
    /\ ri <> rj
    /\ id ri = id rj.
Proof.
  eexists. eexists. eexists.
  split; [ reflexivity | ].
  split; [ vm_compute; reflexivity | ].
  split; [ vm_compute; reflexivity | ].
  split; [ discriminate | reflexivity ].
Qed.

(** Three POSTs a second apart: three distinct ids. *)
Lemma ids_distinct_example :
  NoDup (map id (sensorData (example_store 3))).
Proof.
  apply (ids_distinct_when_instants_distinct (host := example_host)
           (map post_request (example_posts 3 1730512345678))).
  vm_compute. repeat constructor; simpl; intuition discriminate.
Defined.

(** The body [{strain: "abc", vibration: 5, displacement: 0, acceleration: 1}]
    is answered 200 and its strain is stored as NaN. *)
Lemma post_abc_example :
  exists r : Reading,
    fst (post_sensor_data (host := example_host)
           (body_of (Str "abc") (Num (of_Z 5)) (Num (of_Z 0)) (Num (of_Z 1)))
           1730512345678 1730512345678 localDataStore)
    = Sent {| status := 200;
              payload := Stored true "Data stored successfully in memory" r |}
    /\ nth_error
         (sensorData
            (snd (post_sensor_data (host := example_host)
                    (body_of (Str "abc") (Num (of_Z 5)) (Num (of_Z 0)) (Num (of_Z 1)))
                    1730512345678 1730512345678 localDataStore))) 0 = Some r
    /\ strain r = NaN.
Proof.
  assert (Hfields : forall k, In k required_fields ->
            Get (body_of (Str "abc") (Num (of_Z 5)) (Num (of_Z 0)) (Num (of_Z 1))) k
            <> Undefined
            /\ Get (body_of (Str "abc") (Num (of_Z 5)) (Num (of_Z 0)) (Num (of_Z 1))) k
               <> Null).
  { intros k Hk. simpl in Hk.
    destruct Hk as [<- | [<- | [<- | [<- | []]]]]; split; discriminate. }
  assert (Hconv : forall k, In k required_fields ->
            converts (host := example_host)
              (Get (body_of (Str "abc") (Num (of_Z 5)) (Num (of_Z 0)) (Num (of_Z 1))) k)
            = true).
  { intros k Hk. simpl in Hk.
    destruct Hk as [<- | [<- | [<- | [<- | []]]]]; reflexivity. }
  destruct (post_accepts_what_Number_converts (host := example_host)
              (body_of (Str "abc") (Num (of_Z 5)) (Num (of_Z 0)) (Num (of_Z 1)))
              1730512345678 1730512345678 localDataStore Hfields)
    as (_ & Haccepted & _ & _ & _ & Habc & _).
  destruct (Haccepted Hconv) as (r & Hanswer & Hhead & Hnan).
  exists r. split; [ exact Hanswer | split; [ exact Hhead | ] ].
  destruct (Hnan "abc" Habc) as (Hstrain & _).
  apply Hstrain. reflexivity.
Defined.

(** C10, where the code departs from it.  In the body
    [{strain: {toString: "x"}, vibration: 5, displacement: 0, acceleration: 1}]
    the four fields are present, neither undefined nor null, and strain is
    not numeric; yet the body is not accepted: [Number(strain)] throws, no
    answer is sent by the handler, and the store stays empty. *)
Lemma post_unconvertible_field_throws :
  (forall k, In k required_fields ->
     Get (body_of (Object [("toString", Str "x")]) (Num (of_Z 5)) (Num (of_Z 0))
            (Num (of_Z 1))) k <> Undefined
     /\ Get (body_of (Object [("toString", Str "x")]) (Num (of_Z 5)) (Num (of_Z 0))
               (Num (of_Z 1))) k <> Null)
  /\ post_sensor_data (host := example_host)
       (body_of (Object [("toString", Str "x")]) (Num (of_Z 5)) (Num (of_Z 0))
          (Num (of_Z 1)))
       1730512345678 1730512345678 localDataStore
     = (Threw, localDataStore)
  /\ sensorData
       (run (host := example_host)
          [POST_sensor_data
             (body_of (Object [("toString", Str "x")]) (Num (of_Z 5)) (Num (of_Z 0))
                (Num (of_Z 1)))
             1730512345678 1730512345678]
          localDataStore) = [].
Proof.
  split; [ | split; reflexivity ].
  intros k Hk. simpl in Hk.
  destruct Hk as [<- | [<- | [<- | [<- | []]]]]; split; discriminate.
Qed.

(** ** Runs of mixed requests *)

Section Runs.

Context {host : Host}.

#[local] Arguments firstn : simpl never.

(** Only an accepted POST changes the store. *)
Lemma handle_not_accepted (rq : Request) (store : DataStore) :
  is_accepted_post rq = false -> snd (handle rq store) = store.
Proof.
  intros Hrq. rewrite handle_snd.
  destruct rq as [body tDate tNow | query_limit | | ]; try reflexivity.
  cbn [is_accepted_post] in Hrq. rewrite Hrq. reflexivity.
Qed.

Lemma run_store (rqs : list Request) :
  forall store : DataStore,
  (List.length (sensorData store) <= 50)%nat ->
  sensorData (run rqs store) =
  firstn 50 (rev (accepted_readings rqs) ++ sensorData store).
Proof.
  induction rqs as [ | rq rqs IH ]; intros store Hlen.
  - simpl. symmetry. apply firstn_all2. exact Hlen.
  - cbn [run]. rewrite IH by (apply handle_bounded; exact Hlen).
    rewrite handle_snd.
    destruct rq as [body tDate tNow | query_limit | | ];
      cbn [accepted_readings]; try reflexivity.
    destruct (present body); [ | reflexivity ].
    cbn [sensorData rev].
    rewrite firstn_app_firstn, <- app_assoc. reflexivity.
Qed.

(** X1.  Whatever requests are served from the empty store, in whatever
    order (POSTs answered 200, POSTs answered 400, POSTs whose handler throws
    in [Number], GETs with any limit, latest, downloads), the store afterwards
    holds the readings of the last 50 accepted POSTs, newest first, and
    nothing else.  A POST is accepted when it is answered 200: its four fields
    pass the presence check and [Number] converts each of them. *)
Theorem store_after_any_run (rqs : list Request) :
  sensorData (run rqs localDataStore)
  = rev (skipn (List.length (accepted_readings rqs) - 50) (accepted_readings rqs))
  /\ List.length (sensorData (run rqs localDataStore))
     = Nat.min (List.length (accepted_readings rqs)) 50.
Proof.
  assert (Hstore : sensorData (run rqs localDataStore)
                   = firstn 50 (rev (accepted_readings rqs))).
  { rewrite run_store by (simpl; lia). simpl sensorData.
    rewrite app_nil_r. reflexivity. }
  split.
  - rewrite Hstore. apply firstn_rev.
  - rewrite Hstore, length_firstn, length_rev. lia.
Qed.

(** X2.  Requests that are not accepted POSTs (rejected POSTs and the three
    read routes) can be dropped from a run without changing the store it
    ends in. *)
Theorem run_depends_on_accepted_posts_only (rqs : list Request)
    (store : DataStore) :
  run rqs store = run (filter is_accepted_post rqs) store.
Proof.
  revert store. induction rqs as [ | rq rqs IH ]; intros store.
  - reflexivity.
  - cbn [filter]. destruct (is_accepted_post rq) eqn:Hrq.
    + cbn [run]. apply IH.
    + cbn [run]. rewrite (handle_not_accepted _ _ Hrq). apply IH.
Qed.

(** X3.  After any run from the empty store the latest-reading route
    answers 404 when no POST of the run was accepted (answered 200: the four
    fields pass the presence check and [Number] converts each of them), and
    otherwise answers 200 with the reading of the last accepted POST. *)
Theorem latest_after_any_run (rqs : list Request) :
  fst (get_sensor_data_latest (run rqs localDataStore))
  = match rev (accepted_readings rqs) with
    | [] => {| status := 404; payload := Message false "No data available" |}
    | r :: _ => {| status := 200; payload := Latest true (Some r) |}
    end.
Proof.
  pose proof (run_store rqs localDataStore) as Hstore.
  simpl sensorData in Hstore. rewrite app_nil_r in Hstore.
  specialize (Hstore (Nat.le_0_l 50)).
  destruct (rev (accepted_readings rqs)) as [ | r others ].
  - rewrite (latest_empty _ Hstore). reflexivity.
  - change 50%nat with (S 49) in Hstore. rewrite firstn_cons in Hstore.
    rewrite (latest_head _ _ _ Hstore). reflexivity.
Qed.

(** X4.  Whatever the limit sent, the GET route leaves the store as it
    was.  When [parseInt] converts the limit to a string (an absent limit, a
    string of any content, a plain object with no own property [toString])
    the route answers 200 with success true and a prefix of the store: the
    newest readings first, none repeated or reordered.  When the conversion
    throws (a plain object with an own property [toString], as the query
    [limit[toString]=1] gives) the handler throws at line 106, outside its
    [try], and sends no response of its own. *)
Theorem get_returns_a_prefix (query_limit : value) (store : DataStore) :
  snd (get_sensor_data query_limit store) = store
  /\ match ToString query_limit with
     | Some _ =>
       exists k : nat,
         (k <= List.length (sensorData store))%nat
         /\ fst (get_sensor_data query_limit store)
            = Sent {| status := 200;
                      payload := Data true (firstn k (sensorData store)) |}
     | None => fst (get_sensor_data query_limit store) = Threw
     end
  /\ (is_primitive query_limit = true \/ query_limit = Undefined ->
      ToString query_limit <> None)
  /\ (forall properties,
        ToString (Object properties) = None
        <-> HasOwnProperty properties "toString" = true)
  /\ ToString (Object [("toString", Str "1")]) = None.
Proof.
  split; [ apply get_sensor_data_store | ].
  split; [ | split; [ | split; [ | reflexivity ] ] ];
    [ | intros [Hprim | ->]; [ | discriminate ];
        destruct query_limit as [ | | [ | ] | n | s | l | ps ];
        try discriminate Hprim; discriminate
      | intros properties; cbn [ToString];
        destruct (HasOwnProperty properties "toString");
        split; intros H; try reflexivity; discriminate ].
  unfold get_sensor_data, parseInt.
  destruct (ToString query_limit) as [ text | ]; [ | reflexivity ].
  cbn [option_map fst]. rewrite slice_from_zero.
  destruct (ToIntegerOrInfinity _) as [ | rel | ].
  - exists 0%nat. split; [ lia | reflexivity ].
  - destruct (rel <? 0).
    + exists (List.length (sensorData store) - Z.to_nat (- rel))%nat.
      split; [ lia | reflexivity ].
    + exists (Nat.min (Z.to_nat rel) (List.length (sensorData store))).
      split; [ lia | ].
      rewrite <- firstn_firstn, firstn_all. reflexivity.
  - exists (List.length (sensorData store)). split; [ lia | ].
    rewrite firstn_all. reflexivity.
Qed.

(** The rows of the sheet the download route builds. *)
Lemma download_rows (store : DataStore) :
  match payload (fst (get_sensor_data_download store)) with
  | File _ ws => ExcelJS.rows ws = header_row :: map data_row (sensorData store)
  | _ => False
  end.
Proof.
  unfold get_sensor_data_download. cbn [fst payload].
  destruct (add_rows (sensorData store)
              (ExcelJS.set_columns sheet_columns (ExcelJS.addWorksheet "Sensor Data")))
    as (_ & _ & Hrows).
  unfold ExcelJS.set_row_font. cbn [ExcelJS.rows]. rewrite Hrows. reflexivity.
Qed.

(** X5.  A download served after any run from the empty store carries the
    header row followed by the rows of the readings of the last 50 accepted
    POSTs (those answered 200: the four fields pass the presence check and
    [Number] converts each of them), newest first: 51 rows at most. *)
Theorem download_after_any_run (rqs : list Request) :
  exists ws : ExcelJS.Worksheet,
    payload (fst (get_sensor_data_download (run rqs localDataStore)))
    = File "sensor_data.xlsx" ws
    /\ ExcelJS.rows ws
       = header_row :: map data_row (firstn 50 (rev (accepted_readings rqs)))
    /\ (List.length (ExcelJS.rows ws) <= 51)%nat.
Proof.
  pose proof (download_rows (run rqs localDataStore)) as Hrows.
  pose proof (run_store rqs localDataStore) as Hstore.
  simpl sensorData in Hstore. rewrite app_nil_r in Hstore.
  specialize (Hstore (Nat.le_0_l 50)).
  destruct (get_sensor_data_download (run rqs localDataStore))
    as [[st [ | | | | filename ws ]] store'] eqn:Hd;
    cbn [fst payload] in *; try contradiction.
  assert (Hname : filename = "sensor_data.xlsx").
  { unfold get_sensor_data_download in Hd. injection Hd as _ Hf _ _.
    symmetry. exact Hf. }
  subst filename. exists ws. rewrite Hrows, Hstore.
  split; [ reflexivity | split; [ reflexivity | ] ].
  simpl. rewrite length_map, length_firstn. lia.
Qed.

(** X18.  The reading of an accepted POST (one answered 200: the four
    fields pass the presence check and [Number] converts each of them) stays in
    the store while fewer than 50 POSTs are accepted after its own, at the
    index that counts them; once 50 more have been accepted the store is the
    one that would have resulted had the reading never been posted. *)
Theorem reading_lifetime (p : Post) (rqs : list Request) (store : DataStore) :
  post_present p = true ->
  (List.length (sensorData store) <= 50)%nat ->
  let later := List.length (accepted_readings rqs) in
  let after := run (post_request p :: rqs) store in
  ((later < 50)%nat ->
   nth_error (sensorData after) later = Some (post_reading p))
  /\ ((50 <= later)%nat -> after = run rqs store).
Proof.
  destruct p as [[body tDate] tNow]. cbn [post_present post_request post_reading].
  intros Hp Hlen.
  set (later := List.length (accepted_readings rqs)).
  set (after := run (POST_sensor_data body tDate tNow :: rqs) store).
  assert (Hafter : sensorData after
                   = firstn 50 (rev (accepted_readings rqs)
                                ++ reading_of body tDate tNow :: sensorData store)).
  { unfold after. rewrite run_store by exact Hlen.
    cbn [accepted_readings]. rewrite Hp. cbn [rev].
    rewrite <- app_assoc. reflexivity. }
  assert (Hrev : List.length (rev (accepted_readings rqs)) = later)
    by apply length_rev.
  split.
  - intros Hlater. rewrite Hafter, nth_error_firstn.
    destruct (Nat.ltb_spec later 50) as [ _ | Hge ]; [ | lia ].
    rewrite nth_error_app2 by lia. rewrite Hrev, Nat.sub_diag. reflexivity.
  - intros Hlater.
    assert (Hsame : sensorData after = sensorData (run rqs store)).
    { rewrite Hafter, (run_store rqs store Hlen), !firstn_app, Hrev.
      replace (50 - later)%nat with 0%nat by lia. rewrite !firstn_O.
      reflexivity. }
    destruct after as [l1], (run rqs store) as [l2]. simpl in Hsame.
    rewrite Hsame. reflexivity.
Qed.

End Runs.

(** ** The date string *)

Lemma span_digits_prefix (d rest : string) :
  digit_string d = true -> starts_with_digit rest = false ->
  span_digits (String.append d rest) = (d, rest).
Proof.
  intros Hd Hrest. induction d as [ | c d IH ].
  - simpl. destruct rest as [ | a rest ]; [ reflexivity | ].
    simpl in *. rewrite Hrest. reflexivity.
  - simpl in *. apply andb_true_iff in Hd. destruct Hd as [Hc Hd].
    rewrite Hc, (IH Hd). reflexivity.
Qed.

Lemma match_date_prefix (m d y rest : string) :
  digit_string m = true -> digit_string d = true -> digit_string y = true ->
  m <> "" -> d <> "" -> y <> "" ->
  starts_with_digit rest = false ->
  match_date (String.append m (String "/" (String.append d
                (String "/" (String.append y rest)))))
  = Some (m, d, y, rest).
Proof.
  intros Hm Hd Hy Nm Nd Ny Hrest. unfold match_date.
  rewrite span_digits_prefix by (assumption || reflexivity).
  destruct m as [ | cm m ]; [ contradiction | ].
  cbn [strip_prefix]. rewrite Ascii.eqb_refl.
  rewrite span_digits_prefix by (assumption || reflexivity).
  destruct d as [ | cd d ]; [ contradiction | ].
  cbn [strip_prefix]. rewrite Ascii.eqb_refl.
  rewrite span_digits_prefix by assumption.
  destruct y as [ | cy y ]; [ contradiction | ].
  reflexivity.
Qed.

Lemma has_char_append (c : ascii) (s t : string) :
  has_char c (String.append s t) = has_char c s || has_char c t.
Proof.
  induction s as [ | a s IH ]; simpl; [ reflexivity | ].
  rewrite IH. apply orb_assoc.
Qed.

Lemma match_date_needs_slash (s : string) :
  has_char "/" s = false -> match_date s = None.
Proof.
  intros Hs. unfold match_date.
  pose proof (span_digits_append s) as Happ.
  destruct (span_digits s) as [g1 r1]. simpl in Happ.
  destruct g1 as [ | c g1 ]; [ reflexivity | ].
  destruct (strip_prefix "/" r1) as [ r1' | ] eqn:Hstrip; [ | reflexivity ].
  apply strip_prefix_append in Hstrip. subst r1.
  rewrite <- Happ in Hs. rewrite has_char_append in Hs.
  apply orb_false_iff in Hs. destruct Hs as [_ Hs]. discriminate.
Qed.

Section DateString.

Context {host : Host}.

(** X6.  When the host renders the instant as month/day/year followed by
    anything that does not start with a digit (as en-US does:
    [11/02/2024, 07:22:25]), [getISTDateTime] gives year-month-day followed
    by the same rest ([2024-11-02, 07:22:25]). *)
Theorem getISTDateTime_reorders_date (now : Z) (m d y rest : string) :
  digit_string m = true -> digit_string d = true -> digit_string y = true ->
  m <> "" -> d <> "" -> y <> "" ->
  starts_with_digit rest = false ->
  toLocaleString now
  = String.append m (String "/" (String.append d
      (String "/" (String.append y rest)))) ->
  getISTDateTime now
  = String.append y (String "-" (String.append m
      (String "-" (String.append d rest)))).
Proof.
  intros Hm Hd Hy Nm Nd Ny Hrest Hhost. unfold getISTDateTime.
  rewrite Hhost, replace_date_unfold.
  rewrite (match_date_prefix m d y rest) by assumption.
  reflexivity.
Qed.

(** X7.  When the host's rendering holds no slash (for instance a locale
    that already writes the date with dashes or dots), [getISTDateTime]
    returns it unchanged. *)
Theorem getISTDateTime_without_slash (now : Z) :
  has_char "/" (toLocaleString now) = false ->
  getISTDateTime now = toLocaleString now.
Proof.
  unfold getISTDateTime. generalize (toLocaleString now) as s.
  induction s as [ | c s IH ]; intros Hs; [ reflexivity | ].
  rewrite replace_date_unfold, (match_date_needs_slash _ Hs).
  simpl in Hs. apply orb_false_iff in Hs. destruct Hs as [_ Hs].
  rewrite (IH Hs). reflexivity.
Qed.

End DateString.

(** ** Integers as Number values *)

Lemma digits2_pos_iter (m p : positive) :
  digits2_pos (Pos.iter xO m p) = (digits2_pos m + p)%positive.
Proof.
  rewrite (Pos.iter_swap_gen _ _ digits2_pos xO Pos.succ) by reflexivity.
  induction p as [ | p IH ] using Pos.peano_ind.
  - simpl. rewrite Pos.add_1_r. reflexivity.
  - rewrite Pos.iter_succ, IH, Pos.add_succ_r. reflexivity.
Qed.

Lemma Zpos_iter_xO (m p : positive) :
  Zpos (Pos.iter xO m p) = Z.shiftl (Zpos m) (Zpos p).
Proof.
  unfold Z.shiftl.
  apply (Pos.iter_swap_gen _ _ Zpos xO (Z.mul 2)). reflexivity.
Qed.

Lemma digits2_pos_bound (m : positive) :
  2 ^ (Zpos (digits2_pos m) - 1) <= Zpos m < 2 ^ Zpos (digits2_pos m).
Proof.
  induction m as [ m IH | m IH | ]; cbn [digits2_pos].
  - rewrite Pos2Z.inj_succ.
    replace (Z.succ (Zpos (digits2_pos m)) - 1) with (Z.succ (Zpos (digits2_pos m) - 1)) by lia.
    rewrite !Z.pow_succ_r by lia. lia.
  - rewrite Pos2Z.inj_succ.
    replace (Z.succ (Zpos (digits2_pos m)) - 1) with (Z.succ (Zpos (digits2_pos m) - 1)) by lia.
    rewrite !Z.pow_succ_r by lia. lia.
  - simpl. lia.
Qed.

Lemma digits2_pos_le_53 (m : positive) :
  Zpos m < 2 ^ 53 -> Zpos (digits2_pos m) <= 53.
Proof.
  intros Hm. destruct (digits2_pos_bound m) as [Hlo _].
  destruct (Z.le_gt_cases (Zpos (digits2_pos m)) 53) as [H | H]; [ exact H | ].
  assert (2 ^ 53 <= 2 ^ (Zpos (digits2_pos m) - 1)) by (apply Z.pow_le_mono_r; lia).
  lia.
Qed.

(** The Number value for a positive integer below 2^53 under a sign: the
    integer itself, its mantissa shifted to 53 bits. *)
Lemma binary_round_exact (s : bool) (m : positive) :
  Zpos m < 2 ^ 53 ->
  exists mz : positive,
    binary_round prec emax s m 0
    = S754_finite s mz (Zpos (digits2_pos m) - 53)
    /\ Zpos mz = Zpos m * 2 ^ (53 - Zpos (digits2_pos m)).
Proof.
  intros Hm. pose proof (digits2_pos_le_53 m Hm) as Hd.
  unfold binary_round.
  assert (Hfexp : fexp prec emax (Zpos (digits2_pos m) + 0) = Zpos (digits2_pos m) - 53).
  { unfold fexp, emin, prec, emax. lia. }
  rewrite Hfexp. unfold shl_align.
  destruct (Zpos (digits2_pos m) - 53 - 0) as [ | q | q ] eqn:Hshift; try lia.
  - exists m.
    assert (H53 : Zpos (digits2_pos m) = 53) by lia.
    split; [ | rewrite H53; simpl; lia ].
    unfold binary_round_aux, shr_fexp, Zdigits2. rewrite H53.
    cbn. rewrite H53. reflexivity.
  - exists (Pos.iter xO m q).
    assert (Hdig : Zpos (digits2_pos (Pos.iter xO m q)) = 53).
    { rewrite digits2_pos_iter, Pos2Z.inj_add. lia. }
    unfold binary_round_aux, shr_fexp, Zdigits2. rewrite Hdig.
    assert (Hfexp2 : fexp prec emax (53 + (Zpos (digits2_pos m) - 53)) - (Zpos (digits2_pos m) - 53) = 0).
    { unfold fexp, emin, prec, emax. lia. }
    rewrite Hfexp2. cbn [shr shr_record_of_loc shr_m loc_of_shr_record round_nearest_even].
    unfold Zdigits2. rewrite Hdig, Hfexp2. cbn [shr shr_m].
    assert (Hle : (Zpos (digits2_pos m) - 53 <=? emax - prec) = true).
    { apply Z.leb_le. unfold emax, prec. lia. }
    rewrite Hle. split; [ reflexivity | ].
    rewrite Zpos_iter_xO, Z.shiftl_mul_pow2 by lia.
    f_equal. f_equal. lia.
Qed.

Lemma of_Z_pos (m : positive) :
  Zpos m < 2 ^ 53 ->
  exists mz : positive,
    of_Z (Zpos m) = S754_finite false mz (Zpos (digits2_pos m) - 53)
    /\ Zpos mz = Zpos m * 2 ^ (53 - Zpos (digits2_pos m)).
Proof. apply binary_round_exact. Qed.

Lemma of_Z_neg (m : positive) :
  Zpos m < 2 ^ 53 ->
  exists mz : positive,
    of_Z (Zneg m) = S754_finite true mz (Zpos (digits2_pos m) - 53)
    /\ Zpos mz = Zpos m * 2 ^ (53 - Zpos (digits2_pos m)).
Proof. apply binary_round_exact. Qed.

Lemma shift_back (m mz : positive) :
  Zpos (digits2_pos m) <= 53 ->
  Zpos mz = Zpos m * 2 ^ (53 - Zpos (digits2_pos m)) ->
  Z.shiftl (Zpos mz) (Zpos (digits2_pos m) - 53) = Zpos m.
Proof.
  intros Hd Hmz. rewrite Hmz.
  replace (Zpos (digits2_pos m) - 53) with (- (53 - Zpos (digits2_pos m))) by lia.
  rewrite Z.shiftl_opp_r, Z.shiftr_div_pow2 by lia.
  apply Z.div_mul. apply Z.pow_nonzero; lia.
Qed.

Lemma ToIntegerOrInfinity_of_Z (k : Z) :
  - 2 ^ 53 < k < 2 ^ 53 -> ToIntegerOrInfinity (of_Z k) = Int k.
Proof.
  intros Hk. destruct k as [ | m | m ].
  - reflexivity.
  - destruct (of_Z_pos m) as (mz & Hof & Hmz); [ lia | ].
    rewrite Hof. cbn [ToIntegerOrInfinity cond_Zopp].
    rewrite (shift_back m mz); [ reflexivity | apply digits2_pos_le_53; lia | exact Hmz ].
  - destruct (of_Z_neg m) as (mz & Hof & Hmz); [ lia | ].
    rewrite Hof. cbn [ToIntegerOrInfinity cond_Zopp].
    rewrite (shift_back m mz); [ reflexivity | apply digits2_pos_le_53; lia | exact Hmz ].
Qed.

(** Comparing two positive integers below 2^53 through their Number
    values. *)
Lemma compare_mantissas (a b az bz : positive) :
  Zpos a < 2 ^ 53 -> Zpos b < 2 ^ 53 ->
  Zpos az = Zpos a * 2 ^ (53 - Zpos (digits2_pos a)) ->
  Zpos bz = Zpos b * 2 ^ (53 - Zpos (digits2_pos b)) ->
  match Zpos (digits2_pos a) - 53 ?= Zpos (digits2_pos b) - 53 with
  | Lt => Lt
  | Gt => Gt
  | Eq => Pos.compare_cont Eq az bz
  end = (Zpos a ?= Zpos b).
Proof.
  intros Ha Hb Haz Hbz.
  destruct (digits2_pos_bound a) as [Ha1 Ha2].
  destruct (digits2_pos_bound b) as [Hb1 Hb2].
  destruct (Z.compare_spec (Zpos (digits2_pos a) - 53) (Zpos (digits2_pos b) - 53)) as [He | He | He].
  - assert (Hd : Zpos (digits2_pos a) = Zpos (digits2_pos b)) by lia.
    change (Pos.compare_cont Eq az bz) with (Zpos az ?= Zpos bz).
    rewrite Haz, Hbz, Hd.
    assert (HX : 0 < 2 ^ (53 - Zpos (digits2_pos b))).
    { apply Z.pow_pos_nonneg; [ lia | ].
      pose proof (digits2_pos_le_53 b Hb). lia. }
    destruct (Z.compare_spec (Zpos a) (Zpos b)) as [Hab | Hab | Hab].
    + rewrite Hab. apply Z.compare_refl.
    + apply Z.compare_lt_iff. nia.
    + apply Z.compare_gt_iff. nia.
  - symmetry. apply Z.compare_lt_iff.
    assert (2 ^ Zpos (digits2_pos a) <= 2 ^ (Zpos (digits2_pos b) - 1))
      by (apply Z.pow_le_mono_r; lia).
    lia.
  - symmetry. apply Z.compare_gt_iff.
    assert (2 ^ Zpos (digits2_pos b) <= 2 ^ (Zpos (digits2_pos a) - 1))
      by (apply Z.pow_le_mono_r; lia).
    lia.
Qed.

(** On integers below 2^53 in magnitude, the comparison of Number values
    is the comparison of the integers. *)
Lemma SFcompare_of_Z (a b : Z) :
  - 2 ^ 53 < a < 2 ^ 53 -> - 2 ^ 53 < b < 2 ^ 53 ->
  SFcompare (of_Z a) (of_Z b) = Some (a ?= b).
Proof.
  intros Ha Hb.
  destruct a as [ | a | a ]; destruct b as [ | b | b ];
    try (destruct (of_Z_pos a) as (az & Hofa & Haz); [ lia | ]; rewrite Hofa);
    try (destruct (of_Z_neg a) as (az & Hofa & Haz); [ lia | ]; rewrite Hofa);
    try (destruct (of_Z_pos b) as (bz & Hofb & Hbz); [ lia | ]; rewrite Hofb);
    try (destruct (of_Z_neg b) as (bz & Hofb & Hbz); [ lia | ]; rewrite Hofb);
    try reflexivity.
  - cbn [SFcompare]. f_equal. apply compare_mantissas; assumption || lia.
  - cbn [SFcompare]. f_equal.
    change (Zneg a ?= Zneg b) with (CompOpp (Zpos a ?= Zpos b)).
    rewrite <- (compare_mantissas a b az bz) by (assumption || lia).
    destruct (Zpos (digits2_pos a) - 53 ?= Zpos (digits2_pos b) - 53);
      reflexivity.
Qed.

Lemma SFltb_of_Z (a b : Z) :
  - 2 ^ 53 < a < 2 ^ 53 -> - 2 ^ 53 < b < 2 ^ 53 ->
  SFltb (of_Z a) (of_Z b) = (a <? b).
Proof.
  intros Ha Hb. unfold SFltb, Z.ltb. rewrite SFcompare_of_Z by assumption.
  reflexivity.
Qed.

(** ** Decimal strings *)

Lemma digit_value_10 (c : ascii) :
  digit_value 10 c = if is_digit c then Some (code c - 48) else None.
Proof.
  unfold digit_value, is_digit.
  destruct ((48 <=? code c) && (code c <=? 57)) eqn:Hd.
  - apply andb_true_iff in Hd. destruct Hd as [H1 H2].
    apply Z.leb_le in H1. apply Z.leb_le in H2.
    destruct (Z.ltb_spec (code c - 48) 10); [ reflexivity | lia ].
  - destruct ((97 <=? code c) && (code c <=? 102)) eqn:Hl.
    + apply andb_true_iff in Hl. destruct Hl as [H1 _]. apply Z.leb_le in H1.
      destruct (Z.ltb_spec (code c - 87) 10); [ lia | reflexivity ].
    + destruct ((65 <=? code c) && (code c <=? 70)) eqn:Hu; [ | reflexivity ].
      apply andb_true_iff in Hu. destruct Hu as [H1 _]. apply Z.leb_le in H1.
      destruct (Z.ltb_spec (code c - 55) 10); [ lia | reflexivity ].
Qed.

Lemma digits_stop (acc : Z) (n : nat) (rest : string) :
  starts_with_digit rest = false -> digits 10 acc n rest = (acc, n, rest).
Proof.
  destruct rest as [ | c rest ]; simpl; [ reflexivity | ].
  intros Hc. rewrite digit_value_10, Hc. reflexivity.
Qed.

Lemma digits_string_of_uint (d : Decimal.uint) :
  forall (acc : Z) (n : nat) (rest : string),
  starts_with_digit rest = false ->
  digits 10 acc n (String.append (NilEmpty.string_of_uint d) rest)
  = (acc * 10 ^ Z.of_N (Unsigned.usize d)
     + Z.of_N (Unsigned.of_lu (Decimal.rev d)),
     (n + String.length (NilEmpty.string_of_uint d))%nat, rest).
Proof.
  induction d as [ | d IH | d IH | d IH | d IH | d IH | d IH | d IH | d IH | d IH | d IH ];
    intros acc n rest Hrest;
    [ simpl; rewrite digits_stop by assumption; f_equal; f_equal; [ lia | lia ] | .. ];
    cbn [NilEmpty.string_of_uint String.append digits];
    rewrite digit_value_10;
    match goal with
    | |- context [is_digit ?c] =>
      change (is_digit c) with true;
      let v := eval vm_compute in (code c - 48) in change (code c - 48) with v
    end;
    cbv iota;
    rewrite IH by assumption;
    match goal with
    | |- context [Decimal.rev (?C d)] =>
      change (Decimal.rev (C d)) with (Decimal.revapp d (C Decimal.Nil));
      rewrite (Unsigned.of_lu_revapp d (C Decimal.Nil))
    end;
    cbn [Unsigned.usize Unsigned.of_lu String.length];
    rewrite N2Z.inj_succ, Z.pow_succ_r by lia;
    rewrite N2Z.inj_add, N2Z.inj_mul, N2Z.inj_pow;
    f_equal; f_equal; try lia.
Qed.

Lemma time_toString_pos (p : positive) :
  time_toString (Zpos p) = NilEmpty.string_of_uint (Pos.to_uint p).
Proof.
  unfold time_toString. simpl.
  pose proof (Unsigned.to_uint_nonnil p) as Hnil.
  destruct (Pos.to_uint p); try reflexivity. contradiction.
Qed.

Lemma time_toString_neg (p : positive) :
  time_toString (Zneg p) = String "-" (time_toString (Zpos p)).
Proof.
  rewrite time_toString_pos. unfold time_toString. simpl.
  pose proof (Unsigned.to_uint_nonnil p) as Hnil.
  destruct (Pos.to_uint p); try reflexivity. contradiction.
Qed.

Lemma string_of_uint_digits (d : Decimal.uint) :
  digit_string (NilEmpty.string_of_uint d) = true.
Proof.
  induction d; simpl; try reflexivity; exact IHd.
Qed.

Lemma append_empty (s : string) : String.append s "" = s.
Proof.
  induction s as [ | c s IH ]; simpl; [ | rewrite IH ]; reflexivity.
Qed.

(** The digits of a positive integer read back as that integer, whatever
    follows them. *)
Lemma digits_time_toString (p : positive) (rest : string) :
  starts_with_digit rest = false ->
  digits 10 0 0 (String.append (time_toString (Zpos p)) rest)
  = (Zpos p, String.length (time_toString (Zpos p)), rest).
Proof.
  intros Hrest. rewrite time_toString_pos.
  rewrite digits_string_of_uint by assumption.
  rewrite <- Unsigned.of_uint_alt, Unsigned.of_to. reflexivity.
Qed.

(** The decimal string of a positive integer starts with a digit that is
    not 0. *)
Lemma time_toString_head (p : positive) :
  exists (c : ascii) (s : string),
    time_toString (Zpos p) = String c s
    /\ is_digit c = true /\ (code c =? 48) = false
    /\ digit_string s = true.
Proof.
  rewrite time_toString_pos.
  assert (Hnorm : Pos.to_uint p = Decimal.unorm (Pos.to_uint p)).
  { rewrite <- Unsigned.to_of, Unsigned.of_to. reflexivity. }
  pose proof (Unsigned.to_uint_nonnil p) as Hnil.
  pose proof (string_of_uint_digits (Pos.to_uint p)) as Hdigits.
  unfold Decimal.unorm in Hnorm.
  pose proof (DecimalFacts.nzhead_nonzero (Pos.to_uint p)) as Hhead.
  destruct (Pos.to_uint p) as [ | d | d | d | d | d | d | d | d | d | d ] eqn:Hp;
    try contradiction;
    try (eexists; eexists; split; [ reflexivity | ];
         split; [ reflexivity | split; [ reflexivity | exact Hdigits ] ]).
  exfalso.
  destruct (Decimal.nzhead (Decimal.D0 d)) as [ | d' | d' | d' | d' | d' | d' | d' | d' | d' | d' ] eqn:Hnz;
    try discriminate.
  - injection Hnorm as Hd. subst d.
    pose proof (Unsigned.to_uint_nonzero p) as Hz. rewrite Hp in Hz.
    apply Hz. reflexivity.
  - apply (Hhead d'). reflexivity.
Qed.

(** No white space is skipped before a decimal digit or a minus sign. *)
Lemma white_space_none (c : ascii) (s : string) :
  is_digit c = true \/ c = "-"%char ->
  white_space (String c s) = None.
Proof.
  intros Hc.
  assert (Hcode : 45 <= code c <= 57).
  { destruct Hc as [Hc | ->]; [ | vm_compute; split; discriminate ].
    unfold is_digit in Hc. apply andb_true_iff in Hc. destruct Hc as [H1 H2].
    apply Z.leb_le in H1. apply Z.leb_le in H2. lia. }
  unfold white_space.
  assert (H13 : (code c <=? 13) = false) by (apply Z.leb_gt; lia).
  assert (H32 : (code c =? 32) = false) by (apply Z.eqb_neq; lia).
  assert (H194 : (code c =? 194) = false) by (apply Z.eqb_neq; lia).
  assert (H225 : (code c =? 225) = false) by (apply Z.eqb_neq; lia).
  assert (H226 : (code c =? 226) = false) by (apply Z.eqb_neq; lia).
  assert (H227 : (code c =? 227) = false) by (apply Z.eqb_neq; lia).
  assert (H239 : (code c =? 239) = false) by (apply Z.eqb_neq; lia).
  rewrite H13, H32, H194, andb_false_r. cbn [orb andb].
  destruct s as [ | c2 [ | c3 s3 ] ]; try reflexivity.
  rewrite H225, H226, H227, H239. reflexivity.
Qed.

Lemma trim_start_none (c : ascii) (s : string) :
  is_digit c = true \/ c = "-"%char ->
  trim_start (String c s) = String c s.
Proof.
  intros Hc. unfold trim_start. cbn [String.length skip_white_space].
  rewrite (white_space_none c s Hc). reflexivity.
Qed.

Lemma sign_digit (c : ascii) (s : string) :
  is_digit c = true -> sign (String c s) = (false, String c s).
Proof.
  unfold is_digit, sign. intros Hc.
  apply andb_true_iff in Hc. destruct Hc as [H1 H2].
  apply Z.leb_le in H1. apply Z.leb_le in H2.
  destruct (Z.eqb_spec (code c) 45); [ lia | ].
  destruct (Z.eqb_spec (code c) 43); [ lia | ]. reflexivity.
Qed.

(** parseInt reads the decimal digits of a positive integer and ignores
    what follows them. *)
Lemma parseInt_string_decimal (p : positive) (rest : string) :
  starts_with_digit rest = false ->
  parseInt_string (String.append (time_toString (Zpos p)) rest) = of_Z (Zpos p).
Proof.
  intros Hrest. unfold parseInt_string.
  pose proof (digits_time_toString p rest Hrest) as Hdigits.
  destruct (time_toString_head p) as (c & s & Hs & Hc & Hzero & _).
  rewrite Hs in *. cbn [String.append] in *.
  rewrite trim_start_none by (left; exact Hc).
  rewrite sign_digit by exact Hc.
  assert (Hradix : match String c (String.append s rest) with
                   | String c0 (String c1 S') =>
                     if (code c0 =? 48) && ((code c1 =? 120) || (code c1 =? 88))
                     then (16, S') else (10, String c (String.append s rest))
                   | _ => (10, String c (String.append s rest))
                   end = (10, String c (String.append s rest))).
  { destruct (String.append s rest); [ reflexivity | ].
    rewrite Hzero. reflexivity. }
  rewrite Hradix, Hdigits. reflexivity.
Qed.

Lemma is_digit_code (c : ascii) :
  is_digit c = true -> 48 <= code c <= 57.
Proof.
  unfold is_digit. intros Hc. apply andb_true_iff in Hc. destruct Hc as [H1 H2].
  apply Z.leb_le in H1. apply Z.leb_le in H2. lia.
Qed.

(** A string whose second character is a decimal digit is no hexadecimal,
    octal or binary literal. *)
Lemma non_decimal_digits (c : ascii) (s : string) :
  digit_string s = true -> non_decimal (String c s) = None.
Proof.
  intros Hs. unfold non_decimal. destruct s as [ | c1 s ]; [ reflexivity | ].
  simpl in Hs. apply andb_true_iff in Hs. destruct Hs as [Hc1 _].
  apply is_digit_code in Hc1.
  destruct (Z.eqb_spec (code c1) 120); [ lia | ].
  destruct (Z.eqb_spec (code c1) 88); [ lia | ].
  destruct (Z.eqb_spec (code c1) 111); [ lia | ].
  destruct (Z.eqb_spec (code c1) 79); [ lia | ].
  destruct (Z.eqb_spec (code c1) 98); [ lia | ].
  destruct (Z.eqb_spec (code c1) 66); [ lia | ]. reflexivity.
Qed.

Lemma unsigned_decimal_integer (p : positive) :
  unsigned_decimal (time_toString (Zpos p)) = Some (LitDecimal (Zpos p) 0, "").
Proof.
  pose proof (digits_time_toString p "" eq_refl) as Hdigits.
  rewrite append_empty in Hdigits.
  destruct (time_toString_head p) as (c & s & Hs & Hc & _ & _).
  unfold unsigned_decimal. rewrite Hdigits. rewrite Hs in *.
  assert (Hinf : strip_prefix "Infinity" (String c s) = None).
  { cbn [strip_prefix]. apply is_digit_code in Hc.
    destruct (Ascii.eqb_spec "I"%char c) as [ <- | ]; [ | reflexivity ].
    vm_compute in Hc. destruct Hc as [_ Hc]. exfalso. apply Hc. reflexivity. }
  rewrite Hinf. reflexivity.
Qed.

Lemma StringToNumber_pos (p : positive) :
  StringToNumber (time_toString (Zpos p)) = of_Z (Zpos p).
Proof.
  pose proof (unsigned_decimal_integer p) as Hdec.
  destruct (time_toString_head p) as (c & s & Hs & Hc & _ & Hdigits).
  unfold StringToNumber. rewrite Hs in *.
  rewrite trim_start_none by (left; exact Hc).
  unfold numeric_literal. rewrite non_decimal_digits by exact Hdigits.
  rewrite sign_digit by exact Hc. rewrite Hdec.
  cbn [all_white_space trim_start String.length skip_white_space literal_value].
  cbn [Z.eqb Z.leb Z.compare cond_Zopp].
  rewrite Z.pow_0_r, Z.mul_1_r. reflexivity.
Qed.

Lemma StringToNumber_neg (p : positive) :
  StringToNumber (time_toString (Zneg p)) = of_Z (Zneg p).
Proof.
  pose proof (unsigned_decimal_integer p) as Hdec.
  destruct (time_toString_head p) as (c & s & Hs & Hc & _ & Hdigits).
  rewrite time_toString_neg. unfold StringToNumber.
  rewrite trim_start_none by (right; reflexivity).
  unfold numeric_literal. rewrite Hs in *.
  rewrite non_decimal_digits by (simpl; rewrite Hc, Hdigits; reflexivity).
  cbn [sign code N_of_ascii]. simpl (_ =? 45). cbv iota.
  rewrite Hdec.
  cbn [all_white_space trim_start String.length skip_white_space literal_value].
  cbn [Z.eqb Z.leb Z.compare cond_Zopp].
  rewrite Z.pow_0_r, Z.mul_1_r. reflexivity.
Qed.

(** StringToNumber of the decimal string of an integer is the Number value
    for that integer. *)
Lemma StringToNumber_time_toString (k : Z) :
  StringToNumber (time_toString k) = of_Z k.
Proof.
  destruct k as [ | p | p ].
  - reflexivity.
  - apply StringToNumber_pos.
  - apply StringToNumber_neg.
Qed.

(** ** Numbers sent as decimal strings *)

Section Numbers.

Context {host : Host}.

#[local] Arguments firstn : simpl never.

(** X8.  A field of an accepted POST given as the decimal string of an
    integer (["12"], ["-3"], ["0"]) is stored as the Number value of that
    integer, as if the number itself had been posted. *)
Theorem post_decimal_string_as_number (body : list (string * value))
    (tDate tNow : Z) (store : DataStore) :
  present body = true ->
  let answer := post_sensor_data body tDate tNow store in
  exists r : Reading,
    nth_error (sensorData (snd answer)) 0 = Some r
    /\ (forall k, Get body "strain" = Str (time_toString k) ->
        strain r = of_Z k)
    /\ (forall k, Get body "vibration" = Str (time_toString k) ->
        vibration r = of_Z k)
    /\ (forall k, Get body "displacement" = Str (time_toString k) ->
        displacement r = of_Z k)
    /\ (forall k, Get body "acceleration" = Str (time_toString k) ->
        acceleration r = of_Z k).
Proof.
  intros Hp answer. unfold answer. rewrite (post_accepted _ _ _ _ Hp).
  exists (reading_of body tDate tNow). cbn [snd sensorData].
  split; [ reflexivity | ].
  repeat split; intros k Hk; cbn; rewrite Hk; cbn;
    apply StringToNumber_time_toString.
Qed.

(** X9.  After any run from the empty store, converting the ids of the
    stored readings back with Number() never throws and gives the instants
    Date.now() read in the last 50 accepted POSTs (those answered 200: the
    four fields pass the presence check and [Number] converts each of them),
    newest first. *)
Theorem ids_convert_back_to_instants (rqs : list Request) :
  map (fun r => Number (Str (id r))) (sensorData (run rqs localDataStore))
  = map Some (firstn 50 (rev (map of_Z (accepted_instants rqs)))).
Proof.
  rewrite <- (map_map id (fun s => Number (Str s))).
  rewrite run_ids by (simpl; lia). simpl (map id _). rewrite app_nil_r.
  rewrite <- !firstn_map, !map_rev, !map_map. f_equal. f_equal.
  apply map_ext. intros k. cbn. f_equal. apply StringToNumber_time_toString.
Qed.

(** X10.  A limit that starts with the decimal digits of an integer k,
    0 < k < 2^53, and goes on with anything that is not a digit (nothing,
    ["abc"], [".5"], ["e3"]) gives the first k readings of the store, all of
    them when there are fewer. *)
Theorem get_decimal_limit (k : Z) (junk : string) (store : DataStore) :
  0 < k < 2 ^ 53 ->
  starts_with_digit junk = false ->
  get_sensor_data (Str (String.append (time_toString k) junk)) store
  = (Sent {| status := 200;
             payload := Data true (firstn (Z.to_nat k) (sensorData store)) |},
     store).
Proof.
  intros Hk Hjunk.
  pose proof (get_sensor_data_positive
                (Str (String.append (time_toString k) junk)) _ store k eq_refl)
    as Hget.
  unfold returned, get_sensor_data in *.
  cbn [parseInt ToString option_map fst payload] in *.
  rewrite Hget; [ reflexivity | | lia ].
  destruct k as [ | p | p ]; try lia.
  rewrite parseInt_string_decimal by assumption.
  apply ToIntegerOrInfinity_of_Z. lia.
Qed.

End Numbers.

(** ** The dashboard *)



Lemma split_piece (sep : ascii) (a b : string) :
  has_char sep a = false ->
  App.split sep (String.append a (String sep b)) = a :: App.split sep b.
Proof.
  induction a as [ | c a IH ]; intros Ha.
  - simpl. rewrite Ascii.eqb_refl. reflexivity.
  - simpl in Ha. apply orb_false_iff in Ha. destruct Ha as [Hc Ha].
    cbn [String.append App.split]. rewrite Hc, (IH Ha). reflexivity.
Qed.

Lemma split_whole (sep : ascii) (b : string) :
  has_char sep b = false -> App.split sep b = [b].
Proof.
  induction b as [ | c b IH ]; intros Hb; [ reflexivity | ].
  simpl in Hb. apply orb_false_iff in Hb. destruct Hb as [Hc Hb].
  cbn [App.split]. rewrite Hc, (IH Hb). reflexivity.
Qed.

(** A state with the thresholds of the initial state has its four sensors
    in order. *)
Lemma thresholds_initial (st : App.State) :
  thresholds st = thresholds App.initial ->
  exists a1 a2 a3 a4 : App.Alert,
    App.alerts st
    = [("strain", a1); ("vibration", a2); ("displacement", a3); ("acceleration", a4)]
    /\ App.threshold a1 = of_Z 1000 /\ App.threshold a2 = of_Z 500
    /\ App.threshold a3 = of_Z 100 /\ App.threshold a4 = of_Z 200.
Proof.
  unfold thresholds, App.initial. cbn [App.alerts map fst snd App.threshold].
  destruct (App.alerts st) as [ | [n1 a1] [ | [n2 a2] [ | [n3 a3] [ | [n4 a4] [ | e rest ] ] ] ] ];
    cbn [map fst snd]; intros Heq; try discriminate.
  injection Heq as H1 T1 H2 T2 H3 T3 H4 T4. subst n1 n2 n3 n4.
  exists a1, a2, a3, a4. repeat split; assumption.
Qed.

Section Dashboard.

Context {host : Host} {browser : App.Browser}.

#[local] Arguments firstn : simpl never.

Lemma checkAlerts_thresholds (data : App.object) (st : App.State) :
  thresholds (App.checkAlerts data st) = thresholds st.
Proof.
  unfold thresholds, App.checkAlerts. cbn [App.alerts].
  rewrite map_map. apply map_ext. intros [sensor a]. reflexivity.
Qed.

Lemma checkAlerts_sensorData (data : App.object) (st : App.State) :
  App.sensorData (App.checkAlerts data st) = App.sensorData st
  /\ App.latestData (App.checkAlerts data st) = App.latestData st.
Proof. split; reflexivity. Qed.

Lemma checkAlerts_error (data : App.object) (st : App.State) :
  App.error (App.checkAlerts data st) = App.error st
  \/ App.error (App.checkAlerts data st) = Some App.warning.
Proof.
  unfold App.checkAlerts. cbn [App.error].
  destruct (existsb _ _); [ right | left ]; reflexivity.
Qed.

(** The poll carries the first 20 readings of the store. *)
Lemma poll_first_20 (store : DataStore) :
  App.poll store = map App.json_reading (firstn 20 (sensorData store)).
Proof.
  unfold App.poll.
  rewrite (get_sensor_data_positive (Str "20") _ store 20 eq_refl); reflexivity.
Qed.


(** X12.  A dashboard that polls the server after any run from the empty
    store holds the readings of the last 20 accepted POSTs (those answered
    200: the four fields pass the presence check and [Number] converts each of
    them) in the order they were accepted, oldest first, as the client
    receives them; its latestData is the first of these, the oldest of the 20,
    and is left as it was when no POST was accepted. *)
Theorem dashboard_after_poll (rqs : list Request) (st : App.State) :
  let accepted := accepted_readings rqs in
  let recent := skipn (List.length accepted - 20) accepted in
  let st' := App.fetchData (App.Fulfilled (App.poll (run rqs localDataStore))) st in
  App.sensorData st' = map App.json_reading recent
  /\ App.latestData st'
     = match recent with
       | [] => App.latestData st
       | oldest :: _ => Some (App.json_reading oldest)
       end.
Proof.
  intros accepted recent st'.
  assert (Hrev : rev (App.poll (run rqs localDataStore))
                 = map App.json_reading recent).
  { rewrite poll_first_20, run_store by (simpl; lia).
    simpl sensorData. rewrite app_nil_r, firstn_firstn.
    change (Nat.min 20 50) with 20%nat.
    rewrite <- map_rev, firstn_rev, rev_involutive. reflexivity. }
  unfold st', App.fetchData. rewrite Hrev.
  destruct (map App.json_reading recent) as [ | first rest ] eqn:Hmap.
  - split; [ reflexivity | ].
    destruct recent; [ reflexivity | discriminate ].
  - destruct recent as [ | oldest others ]; [ discriminate | ].
    injection Hmap as <- <-. split; reflexivity.
Qed.

(** X13.  With the thresholds of the initial state (1000, 500, 100, 200), a
    reading whose four values are integers sets each alert exactly when its
    value is above the threshold, a value equal to the threshold not setting
    it; the warning is shown when at least one alert is set, and otherwise the
    error message is left as it was. *)
Theorem alerts_on_integer_reading (data : App.object) (st : App.State)
    (ks kv kd ka : Z) :
  thresholds st = thresholds App.initial ->
  Get data "strain" = Num (of_Z ks) ->
  Get data "vibration" = Num (of_Z kv) ->
  Get data "displacement" = Num (of_Z kd) ->
  Get data "acceleration" = Num (of_Z ka) ->
  - 2 ^ 53 < ks < 2 ^ 53 -> - 2 ^ 53 < kv < 2 ^ 53 ->
  - 2 ^ 53 < kd < 2 ^ 53 -> - 2 ^ 53 < ka < 2 ^ 53 ->
  map (fun entry : string * App.Alert => (fst entry, App.triggered (snd entry)))
    (App.alerts (App.checkAlerts data st))
  = [("strain", 1000 <? ks); ("vibration", 500 <? kv);
     ("displacement", 100 <? kd); ("acceleration", 200 <? ka)]
  /\ App.error (App.checkAlerts data st)
     = if (1000 <? ks) || (500 <? kv) || (100 <? kd) || (200 <? ka)
       then Some App.warning else App.error st.
Proof.
  intros Hth Hs Hv Hd Ha Rs Rv Rd Ra.
  destruct (thresholds_initial st Hth) as (a1 & a2 & a3 & a4 & Halerts & T1 & T2 & T3 & T4).
  assert (E1 : App.exceeds data "strain" a1 = (1000 <? ks)).
  { unfold App.exceeds. rewrite Hs, T1. cbn [Number]. apply SFltb_of_Z; lia. }
  assert (E2 : App.exceeds data "vibration" a2 = (500 <? kv)).
  { unfold App.exceeds. rewrite Hv, T2. cbn [Number]. apply SFltb_of_Z; lia. }
  assert (E3 : App.exceeds data "displacement" a3 = (100 <? kd)).
  { unfold App.exceeds. rewrite Hd, T3. cbn [Number]. apply SFltb_of_Z; lia. }
  assert (E4 : App.exceeds data "acceleration" a4 = (200 <? ka)).
  { unfold App.exceeds. rewrite Ha, T4. cbn [Number]. apply SFltb_of_Z; lia. }
  unfold App.checkAlerts. cbn [App.alerts App.error]. rewrite Halerts.
  cbn [map existsb fst snd App.triggered]. rewrite E1, E2, E3, E4.
  split; [ reflexivity | ].
  rewrite orb_false_r, !orb_assoc. reflexivity.
Qed.

(** X14.  A stored value that is NaN or infinite reaches the dashboard as
    null, and a null value sets no alert whatever the threshold, as long as the
    threshold is a non-negative integer: a reading stored as NaN or Infinity
    never raises the warning for that sensor. *)
Theorem null_value_sets_no_alert (r : Reading) (a : App.Alert) (t : Z) :
  App.threshold a = of_Z t ->
  0 <= t < 2 ^ 53 ->
  (not_finite (strain r) = true ->
   Get (App.json_reading r) "strain" = Null
   /\ App.exceeds (App.json_reading r) "strain" a = false)
  /\ (not_finite (vibration r) = true ->
      Get (App.json_reading r) "vibration" = Null
      /\ App.exceeds (App.json_reading r) "vibration" a = false)
  /\ (not_finite (displacement r) = true ->
      Get (App.json_reading r) "displacement" = Null
      /\ App.exceeds (App.json_reading r) "displacement" a = false)
  /\ (not_finite (acceleration r) = true ->
      Get (App.json_reading r) "acceleration" = Null
      /\ App.exceeds (App.json_reading r) "acceleration" a = false).
Proof.
  intros Ht Rt.
  assert (Hnull : SFltb (of_Z t) (S754_zero false) = false).
  { change (S754_zero false) with (of_Z 0). rewrite SFltb_of_Z by lia.
    apply Z.ltb_ge. lia. }
  assert (Hjson : forall n, not_finite n = true -> App.json_number n = Null).
  { intros [ s | s | | s m e ]; simpl; intros H; try reflexivity; discriminate. }
  split; [ | split; [ | split ] ]; intros Hn;
    (assert (Hget : forall k v, Get (App.json_reading r) k = v ->
                      v = Null -> App.exceeds (App.json_reading r) k a = false)
       by (intros k v Hk Hv; unfold App.exceeds; rewrite Hk, Hv, Ht; exact Hnull));
    (split; [ | eapply Hget; [ reflexivity | ] ]);
    cbn; apply Hjson; exact Hn.
Qed.

Lemma fetchData_thresholds (outcome : App.Outcome) (st : App.State) :
  thresholds (App.fetchData outcome st) = thresholds st.
Proof.
  unfold thresholds, App.fetchData.
  destruct outcome as [data | tDate r1 r2 r3 r4 tNow ];
    [ destruct (rev data) as [ | first rest ] | ];
    cbn [App.alerts App.checkAlerts]; try reflexivity;
    rewrite map_map; apply map_ext; intros [sensor a]; reflexivity.
Qed.

Lemma fetchData_error (outcome : App.Outcome) (st : App.State) :
  App.error (App.fetchData outcome st) = App.error st
  \/ App.error (App.fetchData outcome st) = Some App.warning.
Proof.
  unfold App.fetchData.
  destruct outcome as [data | tDate r1 r2 r3 r4 tNow ]; cbn [App.error].
  - destruct (rev data) as [ | first rest ]; [ left; reflexivity | ].
    match goal with
    | |- App.error (App.checkAlerts ?d ?s) = _ \/ _ =>
      destruct (checkAlerts_error d s) as [H | H]; rewrite H
    end; [ left | right ]; reflexivity.
  - match goal with
    | |- App.error (App.checkAlerts ?d ?s) = _ \/ _ =>
      destruct (checkAlerts_error d s) as [H | H]; rewrite H
    end; [ left | right ]; reflexivity.
Qed.

(** X15.  Over any sequence of polls, fulfilled or rejected, the sensors and
    their thresholds stay those of the state the polls started from, and a
    warning once shown is never taken back by a poll, even when later readings
    are all below their thresholds. *)
Theorem polls_keep_thresholds_and_warning (outcomes : list App.Outcome)
    (st : App.State) :
  thresholds (App.polls outcomes st) = thresholds st
  /\ (App.error st = Some App.warning ->
      App.error (App.polls outcomes st) = Some App.warning).
Proof.
  revert st. induction outcomes as [ | outcome outcomes IH ]; intros st.
  - split; [ reflexivity | intros H; exact H ].
  - cbn [App.polls]. destruct (IH (App.fetchData outcome st)) as [IHt IHe].
    split.
    + rewrite IHt. apply fetchData_thresholds.
    + intros Hw. apply IHe.
      destruct (fetchData_error outcome st) as [H | H]; rewrite H; auto.
Qed.

Lemma fetchData_window (outcome : App.Outcome) (st : App.State) :
  at_most 20 outcome = true ->
  (List.length (App.sensorData (App.fetchData outcome st)) <= 20)%nat.
Proof.
  unfold App.fetchData.
  destruct outcome as [data | tDate r1 r2 r3 r4 tNow ]; cbn [at_most]; intros Hdata.
  - apply Nat.leb_le in Hdata. rewrite <- length_rev in Hdata.
    destruct (rev data) as [ | first rest ]; exact Hdata.
  - cbn [App.sensorData App.checkAlerts]. rewrite slice_from_zero.
    change (ToIntegerOrInfinity (of_Z 19)) with (Int 19).
    cbn [Z.ltb Z.compare]. cbn [List.length]. rewrite length_firstn.
    change (Z.to_nat 19) with 19%nat. lia.
Qed.

(** X16.  The dashboard never holds more than 20 entries: a rejected fetch
    puts the generated reading in front of the first 19 entries held, the
    server answers the poll with at most 20 readings, and over any sequence of
    polls whose fulfilled responses carry at most 20 readings the list stays
    within 20. *)
Theorem dashboard_holds_at_most_20 (outcomes : list App.Outcome)
    (st : App.State) :
  (List.length (App.sensorData st) <= 20)%nat ->
  forallb (at_most 20) outcomes = true ->
  (List.length (App.sensorData (App.polls outcomes st)) <= 20)%nat
  /\ (forall store : DataStore,
        at_most 20 (App.Fulfilled (App.poll store)) = true)
  /\ (forall tDate r1 r2 r3 r4 tNow,
        App.sensorData (App.fetchData (App.Rejected tDate r1 r2 r3 r4 tNow) st)
        = App.generateRandomData tDate r1 r2 r3 r4 tNow
          :: firstn 19 (App.sensorData st)
        /\ App.latestData (App.fetchData (App.Rejected tDate r1 r2 r3 r4 tNow) st)
           = Some (App.generateRandomData tDate r1 r2 r3 r4 tNow)).
Proof.
  intros Hst Hall. split; [ | split ].
  - revert st Hst. induction outcomes as [ | outcome outcomes IH ]; intros st Hst.
    + exact Hst.
    + cbn [forallb] in Hall. apply andb_true_iff in Hall.
      destruct Hall as [Ho Hrest]. cbn [App.polls].
      apply (IH Hrest). apply fetchData_window. exact Ho.
  - intros store. cbn [at_most]. apply Nat.leb_le.
    rewrite poll_first_20, length_map, length_firstn. lia.
  - intros tDate r1 r2 r3 r4 tNow. unfold App.fetchData.
    cbn [App.sensorData App.latestData App.checkAlerts].
    rewrite slice_from_zero. split; reflexivity.
Qed.

(** X17.  The labels of a chart are the times of day: for entries whose
    timestamp is a date, a space and a time, neither holding a space (as
    [2024-11-02, 07:22:25]), the labels are the times, in the order of the
    entries; and when an entry has no string for timestamp no label list is
    produced. *)
Theorem chart_labels_are_times (data : list App.object) (times : list string) :
  Forall2 (fun d time =>
             exists date : string,
               Get d "timestamp"
               = Str (String.append date (String " " time))
               /\ has_char " " date = false /\ has_char " " time = false)
    data times ->
  App.chart_labels data = Some (map Str times)
  /\ forall d : App.object,
       (forall s, Get d "timestamp" <> Str s) ->
       App.chart_labels (data ++ [d]) = None.
Proof.
  intros Hdata. split.
  - induction Hdata as [ | d time data times (date & Hd & Hdate & Htime) _ IH ];
      [ reflexivity | ].
    cbn [App.chart_labels map]. rewrite Hd, IH.
    rewrite (split_piece " " date time Hdate), (split_whole " " time Htime).
    reflexivity.
  - intros d Hd.
    induction Hdata as [ | d0 time data times (date & Hd0 & _) _ IH ].
    + cbn [app App.chart_labels].
      destruct (Get d "timestamp") eqn:Hts; try reflexivity.
      exfalso. exact (Hd _ eq_refl).
    + cbn [app App.chart_labels]. rewrite Hd0, IH. reflexivity.
Qed.

End Dashboard.

(** ** The further statements at concrete inputs *)

(** The example host renders the instant as [11/02/2024, 07:22:25]; the
    date string is [2024-11-02, 07:22:25]. *)
Lemma getISTDateTime_example :
  getISTDateTime (host := example_host) 1730512345678 = "2024-11-02, 07:22:25".
Proof.
  apply (getISTDateTime_reorders_date (host := example_host) 1730512345678
           "11" "02" "2024" ", 07:22:25");
    try reflexivity; discriminate.
Defined.

(** A rendering with dashes goes through unchanged. *)
Lemma getISTDateTime_dashed_example :
  getISTDateTime (host := dashed_host) 1730512345678 = "2024-11-02, 07:22:25".
Proof.
  rewrite (getISTDateTime_without_slash (host := dashed_host) 1730512345678);
    reflexivity.
Defined.

(** The body [{strain: "12", vibration: "-3", displacement: 0,
    acceleration: 1}] stores strain 12 and vibration -3. *)
Lemma post_decimal_string_example :
  exists r : Reading,
    nth_error
      (sensorData
         (snd (post_sensor_data (host := example_host)
                 (body_of (Str "12") (Str "-3") (Num (of_Z 0)) (Num (of_Z 1)))
                 1730512345678 1730512345678 localDataStore))) 0 = Some r
    /\ strain r = of_Z 12 /\ vibration r = of_Z (-3).
Proof.
  destruct (post_decimal_string_as_number (host := example_host)
              (body_of (Str "12") (Str "-3") (Num (of_Z 0)) (Num (of_Z 1)))
              1730512345678 1730512345678 localDataStore eq_refl)
    as (r & Hhead & Hs & Hv & _).
  exists r. split; [ exact Hhead | split ].
  - apply (Hs 12). reflexivity.
  - apply (Hv (-3)). reflexivity.
Defined.

(** [limit=2abc] on a store of 3 readings gives the 2 newest. *)
Lemma get_decimal_limit_example :
  get_sensor_data (host := example_host) (Str "2abc") (example_store 3)
  = (Sent {| status := 200;
             payload := Data true (firstn 2 (sensorData (example_store 3))) |},
     example_store 3).
Proof.
  apply (get_decimal_limit (host := example_host) 2 "abc" (example_store 3)).
  - split; reflexivity.
  - reflexivity.
Defined.

(** A reading with strain 1200, vibration 500, displacement 0 and
    acceleration 1 sets the strain alert only, and the warning is shown. *)
Lemma alerts_example :
  map (fun entry : string * App.Alert => (fst entry, App.triggered (snd entry)))
    (App.alerts
       (App.checkAlerts (host := example_host)
          (App.json_reading
             {| strain := of_Z 1200; vibration := of_Z 500;
                displacement := of_Z 0; acceleration := of_Z 1;
                timestamp := "2024-11-02, 07:22:25"; id := "1730512345678" |})
          App.initial))
  = [("strain", true); ("vibration", false);
     ("displacement", false); ("acceleration", false)].
Proof.
  destruct (alerts_on_integer_reading (host := example_host)
              (App.json_reading
                 {| strain := of_Z 1200; vibration := of_Z 500;
                    displacement := of_Z 0; acceleration := of_Z 1;
                    timestamp := "2024-11-02, 07:22:25"; id := "1730512345678" |})
              App.initial 1200 500 0 1 eq_refl eq_refl eq_refl eq_refl eq_refl)
    as [Hflags _];
    [ split; reflexivity | split; reflexivity | split; reflexivity
    | split; reflexivity | exact Hflags ].
Defined.

(** A reading stored with strain NaN sets no strain alert. *)
Lemma null_value_example :
  App.exceeds (host := example_host)
    (App.json_reading
       {| strain := NaN; vibration := of_Z 5;
          displacement := of_Z 0; acceleration := of_Z 1;
          timestamp := "2024-11-02, 07:22:25"; id := "1730512345678" |})
    "strain" {| App.threshold := of_Z 1000; App.triggered := false |}
  = false.
Proof.
  destruct (null_value_sets_no_alert (host := example_host)
              {| strain := NaN; vibration := of_Z 5;
                 displacement := of_Z 0; acceleration := of_Z 1;
                 timestamp := "2024-11-02, 07:22:25"; id := "1730512345678" |}
              {| App.threshold := of_Z 1000; App.triggered := false |}
              1000 eq_refl)
    as [Hstrain _]; [ split; [ discriminate | reflexivity ] | ].
  destruct (Hstrain eq_refl) as [_ Hno]. exact Hno.
Defined.

(** A poll answered by the server on a store of 3 readings, then a
    rejected one: the dashboard holds 4 entries, within 20. *)
Lemma dashboard_window_example :
  (List.length
     (App.sensorData
        (App.polls (host := example_host) (browser := example_browser)
           [App.Fulfilled (App.poll (host := example_host) (example_store 3));
            App.Rejected 1730512999000 (of_Z 0) (of_Z 0) (of_Z 0) (of_Z 0)
              1730512999001]
           App.initial)) <= 20)%nat.
Proof.
  destruct (dashboard_holds_at_most_20 (host := example_host)
              (browser := example_browser)
              [App.Fulfilled (App.poll (host := example_host) (example_store 3));
               App.Rejected 1730512999000 (of_Z 0) (of_Z 0) (of_Z 0) (of_Z 0)
                 1730512999001]
              App.initial)
    as [Hlen _].
  - apply Nat.le_0_l.
  - vm_compute. reflexivity.
  - exact Hlen.
Defined.

(** The labels of the two readings of a store, as polled. *)
Lemma chart_labels_example :
  App.chart_labels (App.poll (host := example_host) (example_store 2))
  = Some [Str "07:22:26"; Str "07:22:25"].
Proof.
  destruct (chart_labels_are_times
              (App.poll (host := example_host) (example_store 2))
              ["07:22:26"; "07:22:25"]) as [Hlabels _].
  - constructor; [ | constructor; [ | constructor ] ];
      exists "2024-11-02,"; repeat split; vm_compute; reflexivity.
  - exact Hlabels.
Defined.

(** A reading posted before [example_run] is at index 1 after it, the run
    holding one accepted POST; and the reading of the first of 51 POSTs is
    gone after the 50 that follow, the store being the one those 50 alone
    give. *)
Lemma reading_lifetime_example :
  nth_error
    (sensorData
       (run (host := example_host)
          (POST_sensor_data
             (body_of (Num (of_Z 51)) (Num (of_Z 5)) (Num (of_Z 0)) (Num (of_Z 1)))
             1730512345678 1730512345678 :: example_run)
          localDataStore)) 1
  = Some (reading_of (host := example_host)
            (body_of (Num (of_Z 51)) (Num (of_Z 5)) (Num (of_Z 0)) (Num (of_Z 1)))
            1730512345678 1730512345678)
  /\ example_store 51
     = run (host := example_host)
         (map post_request (example_posts 50 1730512346678)) localDataStore.
Proof.
  split.
  - destruct (reading_lifetime (host := example_host)
                (body_of (Num (of_Z 51)) (Num (of_Z 5)) (Num (of_Z 0)) (Num (of_Z 1)),
                 1730512345678, 1730512345678)
                example_run localDataStore eq_refl (Nat.le_0_l 50)) as [Hstays _].
    apply Hstays. vm_compute. repeat constructor.
  - destruct (reading_lifetime (host := example_host)
                (body_of (Num (of_Z 51)) (Num (of_Z 5)) (Num (of_Z 0)) (Num (of_Z 1)),
                 1730512345678, 1730512345678)
                (map post_request (example_posts 50 1730512346678))
                localDataStore eq_refl (Nat.le_0_l 50)) as [_ Hgone].
    apply Hgone. vm_compute. apply le_n.
Defined.

(** After [example_run] the store holds the one reading that was accepted:
    the POST on which [Number] throws and the POST that lacks a field stored
    nothing. *)
Lemma store_after_example_run :
  sensorData (run (host := example_host) example_run localDataStore)
  = [example_reading].
Proof.
  destruct (store_after_any_run (host := example_host) example_run) as [Hstore _].
  rewrite Hstore. vm_compute. reflexivity.
Defined.

(** After [example_run] the latest-reading route answers with that
    reading. *)
Lemma latest_after_example_run :
  fst (get_sensor_data_latest (run (host := example_host) example_run localDataStore))
  = {| status := 200; payload := Latest true (Some example_reading) |}.
Proof.
  rewrite (latest_after_any_run (host := example_host) example_run).
  vm_compute. reflexivity.
Defined.

(** The limit [{toString: "1"}]: the handler throws, the store stays. *)
Lemma get_object_limit_example :
  get_sensor_data (host := example_host) (Object [("toString", Str "1")])
    (example_store 3)
  = (Threw, example_store 3).
Proof.
  destruct (get_returns_a_prefix (host := example_host)
              (Object [("toString", Str "1")]) (example_store 3))
    as (Hstore & Hanswer & _).
  cbn [ToString HasOwnProperty existsb fst String.eqb Ascii.eqb Bool.eqb orb]
    in Hanswer.
  rewrite (surjective_pairing (get_sensor_data _ _)), Hstore, Hanswer.
  reflexivity.
Defined.

(** After [example_run] the download carries the header row and the row of
    that reading. *)
Lemma download_after_example_run :
  exists ws : ExcelJS.Worksheet,
    payload (fst (get_sensor_data_download
                    (run (host := example_host) example_run localDataStore)))
    = File "sensor_data.xlsx" ws
    /\ ExcelJS.rows ws = [header_row; data_row example_reading].
Proof.
  destruct (download_after_any_run (host := example_host) example_run)
    as (ws & Hfile & Hrows & _).
  exists ws. split; [ exact Hfile | ].
  rewrite Hrows. vm_compute. reflexivity.
Defined.

(** After [example_run] the one id in the store converts back to the instant
    of the accepted POST. *)
Lemma ids_after_example_run :
  map (fun r => Number (host := example_host) (Str (id r)))
    (sensorData (run (host := example_host) example_run localDataStore))
  = [Some (of_Z 1730512346678)].
Proof.
  rewrite (ids_convert_back_to_instants (host := example_host) example_run).
  vm_compute. reflexivity.
Defined.

(** A dashboard that polls after [example_run] holds that reading alone, and
    takes it as latestData. *)
Lemma dashboard_after_example_run :
  App.sensorData
    (App.fetchData (host := example_host) (browser := example_browser)
       (App.Fulfilled
          (App.poll (host := example_host)
             (run (host := example_host) example_run localDataStore)))
       App.initial)
  = [App.json_reading example_reading].
Proof.
  destruct (dashboard_after_poll (host := example_host) (browser := example_browser)
              example_run App.initial) as [Hdata _].
  rewrite Hdata. vm_compute. reflexivity.
Defined.
